(** * Portfolio allocation calculator: the simulator and its statistics helpers

    A shallow embedding of [src/scripts/portfolio.js]: the simulator
    [simulatePortfolio] with [calculateStdDev], and the shared helpers
    [calculateMaxDrawdown] and [calculateVolatility].

    JavaScript Numbers are IEEE 754 binary64 values computed in
    round-to-nearest-even, which is what Rocq's primitive [float] is, so every
    arithmetic step of the source is embedded as the same step on [float] and
    specified through [Prim2SF] and the [SpecFloat] operations.  Integral
    quantities that the source only counts with or uses as table keys (the
    number of years, calendar years, array lengths) are integers here; they
    are Numbers in the source, which represent every integer below 2^53
    exactly. *)

From Stdlib Require Import ZArith QArith Qabs Floats Lia Bool Sorted.
From Stdlib Require Uint63.
From stdpp Require Import base option list strings gmap.

Set Warnings "-inexact-float".
#[local] Open Scope float_scope.

(** ** JavaScript values and operators *)

(** A value that may be [undefined]; [None] is [undefined]. *)
Definition ToNumber (v : option float) : float :=
  match v with
  | Some x => x
  | None => nan
  end.

(** The nullish coalescing operator [a ?? b]. *)
Definition nullish {A} (a b : option A) : option A :=
  match a with
  | Some _ => a
  | None => b
  end.

(** The Number of an array length (below 2^32 in JavaScript). *)
Definition Number_of_nat (n : nat) : float :=
  of_uint63 (Uint63.of_Z (Z.of_nat n)).

(** The Number of an integer of magnitude below 2^63. *)
Definition Number_of_Z (z : Z) : float :=
  match z with
  | Zneg p => - of_uint63 (Uint63.of_Z (Zpos p))
  | _ => of_uint63 (Uint63.of_Z z)
  end.

(** [arr.reduce((a, b) => a + b, 0)]. *)
Definition reduce_sum (arr : list float) : float :=
  fold_left (fun a b => a + b) arr 0.

(** The exact rational value of a finite Number. *)
Definition Number_to_Q (x : float) : option Q :=
  match Prim2SF x with
  | S754_zero _ => Some 0%Q
  | S754_finite s m e =>
      let n := if s then Zneg m else Zpos m in
      Some (match e with
            | Zneg k => Qmake n (2 ^ k)%positive
            | _ => inject_Z (n * 2 ^ e)
            end)
  | _ => None
  end.

(** [x] is finite and less than [eps] away from the rational [q]. *)
Definition within (eps q : Q) (x : float) : bool :=
  match Number_to_Q x with
  | Some v => negb (Qle_bool eps (Qabs (v - q)))
  | None => false
  end.

(** A zero, subnormal or normal Number: neither NaN nor an infinity. *)
Definition finite_number (x : float) : bool :=
  match Prim2SF x with
  | S754_zero _ | S754_finite _ _ _ => true
  | _ => false
  end.

(** Positive or negative zero: the Numbers that [=== 0]. *)
Definition signed_zero (x : float) : Prop := x = 0 \/ x = -0.

(** A zero or NaN. *)
Definition zero_or_nan (x : float) : Prop := signed_zero x \/ x = nan.

(** The same Number, or two zeros of any signs. *)
Definition same_number (x y : float) : Prop :=
  x = y \/ (signed_zero x /\ signed_zero y).

(** A sequence in which no element is below its predecessor. *)
Definition increasing (values : list float) : Prop :=
  Sorted (fun a b => (a <=? b) = true) values.

(** The population standard deviation in the words of the specification: the
    square root of the mean squared deviation from the mean, where both means
    divide by the number [N] of elements. *)
Definition population_mean (xs : list float) : float :=
  reduce_sum xs / Number_of_nat (length xs).

Definition population_std_dev (xs : list float) : float :=
  let mu := population_mean xs in
  PrimFloat.sqrt (population_mean (map (fun x => (x - mu) * (x - mu)) xs)).

(** The sample standard deviation, which divides the squared deviations by
    [N - 1]. *)
Definition sample_std_dev (xs : list float) : float :=
  let mu := population_mean xs in
  PrimFloat.sqrt (reduce_sum (map (fun x => (x - mu) * (x - mu)) xs)
                  / Number_of_nat (length xs - 1)).

(** ** [Math.pow]

    ECMAScript fixes the result of [Math.pow] for a NaN or zero exponent, a
    NaN base, and zero or infinite operands, and leaves the rest to the engine
    ("an implementation-approximated value"); that rest is the parameter
    [Math_pow_impl] here.  The script raises to the power 2 in its two
    deviation helpers, and that case is modelled as the rounded product of the
    base with itself: it is what ECMAScript prescribes at a zero, infinite or
    NaN base, and what the engines compute at an integral exponent of two. *)
Section Math.

Variable Math_pow_impl : float -> float -> float.

Definition Math_pow (base exponent : float) : float :=
  if is_nan exponent then nan
  else if exponent =? 0 then 1
  else if is_nan base then nan
  else if exponent =? 2 then base * base
  else Math_pow_impl base exponent.

(** ** The calculator state *)

Record HistoricalReturns := {
  stocks : gmap Z float;
  bonds : gmap Z float;
  bitcoin : gmap Z float
}.

Record PortfolioCalc := {
  portfolioSize : float;
  stockAllocation : float;
  bondAllocation : float;
  btcAllocation : float;
  timeHorizon : float;
  startYear : float;
  minPortfolioSize : float;
  maxPortfolioSize : float;
  minAllocation : float;
  maxAllocation : float;
  historicalReturns : HistoricalReturns
}.

(** The object literal bound to [const portfolioCalc]. *)
Definition portfolioCalc : PortfolioCalc := {|
  portfolioSize := 1000000;
  stockAllocation := 60;
  bondAllocation := 40;
  btcAllocation := 0;
  timeHorizon := 10;
  startYear := 2014;
  minPortfolioSize := 10000;
  maxPortfolioSize := 1000000000;
  minAllocation := 0;
  maxAllocation := 100;
  historicalReturns := {|
    stocks := list_to_map
      [(2014%Z, 13.7); (2015%Z, 1.4); (2016%Z, 12.0); (2017%Z, 21.8);
       (2018%Z, -4.4); (2019%Z, 31.5); (2020%Z, 18.4); (2021%Z, 28.7);
       (2022%Z, -18.1); (2023%Z, 26.3); (2024%Z, 25.0)];
    bonds := list_to_map
      [(2014%Z, 6.0); (2015%Z, 0.5); (2016%Z, 2.6); (2017%Z, 3.5);
       (2018%Z, 0.0); (2019%Z, 8.7); (2020%Z, 7.5); (2021%Z, -1.5);
       (2022%Z, -13.0); (2023%Z, 5.5); (2024%Z, 1.2)];
    bitcoin := list_to_map
      [(2014%Z, -58); (2015%Z, 35); (2016%Z, 125); (2017%Z, 1318);
       (2018%Z, -73); (2019%Z, 95); (2020%Z, 301); (2021%Z, 60);
       (2022%Z, -65); (2023%Z, 155); (2024%Z, 120)]
  |}
|}.

(** ** Computations over the calculator state

    [simulatePortfolio] reads the global object [portfolioCalc] in every
    iteration, so it is a computation over that state. *)
Definition Calc (A : Type) : Type := PortfolioCalc -> A * PortfolioCalc.

Definition ret {A} (a : A) : Calc A := fun pc => (a, pc).

Definition bind {A B} (m : Calc A) (k : A -> Calc B) : Calc B :=
  fun pc => let '(a, pc') := m pc in k a pc'.

Definition gets {A} (f : PortfolioCalc -> A) : Calc A := fun pc => (f pc, pc).

Notation "'let*' x ':=' m 'in' k" := (bind m (fun x => k))
  (at level 10, x name, m at level 100, k at level 200).

(** ** [calculateStdDev] *)

Definition calculateStdDev (arr : list float) : float :=
  match arr with
  | [] => 0
  | _ =>
      let mean := reduce_sum arr / Number_of_nat (length arr) in
      let squaredDiffs := map (fun x => Math_pow (x - mean) 2) arr in
      PrimFloat.sqrt (reduce_sum squaredDiffs / Number_of_nat (length arr))
  end.

(** ** [simulatePortfolio] *)

Record SimulationResult := {
  years : list Z;
  values : list float;
  returns : list float;
  finalValue : float;
  totalReturn : float;
  cagr : float;
  volatility : float;
  maxDrawdown : float;
  sharpe : float
}.

(** The variables the loop of [simulatePortfolio] assigns: the locals [value]
    and [peak], and the fields of [results] it pushes to or overwrites. *)
Record LoopVars := {
  value : float;
  peak : float;
  results_years : list Z;
  results_values : list float;
  results_returns : list float;
  results_maxDrawdown : float
}.

(** The weighted return of one year from the three looked-up table entries. *)
Definition portfolioReturn (stockPct bondPct btcPct : float)
    (stockReturn bondReturn btcReturn : option float) : float :=
  (stockPct / 100 * ToNumber stockReturn) +
  (bondPct / 100 * ToNumber bondReturn) +
  (btcPct / 100 * ToNumber btcReturn).

(** The return of the year [year] as the loop computes it from the tables
    [hr]: each entry is looked up as [table[year] ?? table[2024]]. *)
Definition yearReturn (hr : HistoricalReturns)
    (stockPct bondPct btcPct : float) (year : Z) : float :=
  portfolioReturn stockPct bondPct btcPct
    (nullish (stocks hr !! year) (stocks hr !! 2024%Z))
    (nullish (bonds hr !! year) (bonds hr !! 2024%Z))
    (nullish (bitcoin hr !! year) (bitcoin hr !! 2024%Z)).

(** One iteration of the [for] loop, at index [i]. *)
Definition loop_body (stockPct bondPct btcPct : float) (startYear : Z)
    (i : Z) (v : LoopVars) : Calc LoopVars :=
  let year := (startYear + i)%Z in
  let* stockReturn := gets (fun pc =>
    nullish (stocks (historicalReturns pc) !! year)
            (stocks (historicalReturns pc) !! 2024%Z)) in
  let* bondReturn := gets (fun pc =>
    nullish (bonds (historicalReturns pc) !! year)
            (bonds (historicalReturns pc) !! 2024%Z)) in
  let* btcReturn := gets (fun pc =>
    nullish (bitcoin (historicalReturns pc) !! year)
            (bitcoin (historicalReturns pc) !! 2024%Z)) in
  let portfolioReturn :=
    portfolioReturn stockPct bondPct btcPct stockReturn bondReturn btcReturn in
  let value := value v * (1 + portfolioReturn / 100) in
  let peak := if peak v <? value then value else peak v in
  let drawdown := (peak - value) / peak * 100 in
  ret {|
    value := value;
    peak := peak;
    results_years := results_years v ++ [year];
    results_values := results_values v ++ [value];
    results_returns := results_returns v ++ [portfolioReturn];
    results_maxDrawdown :=
      if results_maxDrawdown v <? drawdown then drawdown
      else results_maxDrawdown v
  |}.

(** [for (let i = 0; i < years; i++)], with [n] iterations left at index [i]. *)
Fixpoint for_loop (stockPct bondPct btcPct : float) (startYear : Z)
    (n : nat) (i : Z) (v : LoopVars) : Calc LoopVars :=
  match n with
  | O => ret v
  | S n' =>
      let* v' := loop_body stockPct bondPct btcPct startYear i v in
      for_loop stockPct bondPct btcPct startYear n' (i + 1)%Z v'
  end.

(** The variables as the statements before the loop leave them. *)
Definition loop_start (initialValue : float) : LoopVars := {|
  value := initialValue;
  peak := initialValue;
  results_years := [];
  results_values := [];
  results_returns := [];
  results_maxDrawdown := 0
|}.

Definition simulatePortfolio (initialValue stockPct bondPct btcPct : float)
    (years startYear : Z) : Calc SimulationResult :=
  let* v := for_loop stockPct bondPct btcPct startYear (Z.to_nat years) 0%Z
              (loop_start initialValue) in
  let value := value v in
  let totalReturn := ((value - initialValue) / initialValue) * 100 in
  let cagr :=
    if (0 <? years)%Z && (0 <? initialValue)
    then (Math_pow (value / initialValue) (1 / Number_of_Z years) - 1) * 100
    else 0 in
  let volatility := calculateStdDev (results_returns v) in
  let sharpe := if 0 <? volatility then (cagr - 2) / volatility else 0 in
  ret {|
    years := results_years v;
    values := results_values v;
    returns := results_returns v;
    finalValue := value;
    totalReturn := totalReturn;
    cagr := cagr;
    volatility := volatility;
    maxDrawdown := results_maxDrawdown v;
    sharpe := sharpe
  |}.

(** The result of a call made in the state [pc]. *)
Definition simulate (pc : PortfolioCalc)
    (initialValue stockPct bondPct btcPct : float) (years startYear : Z)
    : SimulationResult :=
  fst (simulatePortfolio initialValue stockPct bondPct btcPct years startYear
         pc).

(** ** The shared helpers *)

(** One iteration of the loop of [calculateMaxDrawdown] over the pair of its
    locals [(maxDrawdown, peak)]. *)
Definition drawdown_step (acc : float * float) (value : float)
    : float * float :=
  let '(maxDrawdown, peak) := acc in
  let peak := if peak <? value then value else peak in
  let drawdown := (peak - value) / peak * 100 in
  (if maxDrawdown <? drawdown then drawdown else maxDrawdown, peak).

Definition calculateMaxDrawdown (values : list float) : float :=
  fst (fold_left drawdown_step values (0, ToNumber (values !! 0%nat))).

Definition calculateVolatility (returns : list float) : float :=
  let mean := reduce_sum returns / Number_of_nat (length returns) in
  let squaredDiffs := map (fun r => Math_pow (r - mean) 2) returns in
  let variance := reduce_sum squaredDiffs / Number_of_nat (length returns) in
  PrimFloat.sqrt variance.

End Math.

(** The tables as the script ships them. *)
Abbreviation shipped := (historicalReturns portfolioCalc).

(** An engine whose [Math.pow] answers NaN in the cases ECMAScript leaves
    open; it stands for the engine where a concrete one has to be named. *)
Definition unspecified_pow : float -> float -> float := fun _ _ => nan.

(** * The rest of the calculator and the shared utilities *)

(** ** [Math.max], [Math.min], [Math.round] and [||] *)

Definition is_negative_zero (x : float) : bool :=
  match Prim2SF x with
  | S754_zero true => true
  | _ => false
  end.

(** [Math.max(x, y)]: NaN if either is NaN, and +0 is larger than -0. *)
Definition Math_max (x y : float) : float :=
  if is_nan x || is_nan y then nan
  else if x <? y then y
  else if y <? x then x
  else if is_negative_zero x then y else x.

(** [Math.min(x, y)]: NaN if either is NaN, and -0 is smaller than +0. *)
Definition Math_min (x y : float) : float :=
  if is_nan x || is_nan y then nan
  else if x <? y then x
  else if y <? x then y
  else if is_negative_zero x then x else y.

(** The Number of an integer, rounded to nearest (exact below 2^53). *)
Definition Z_to_Number (z : Z) : float :=
  SF2Prim (binary_normalize prec emax z 0 false).

(** [Math.round(x)]: the integer nearest to [x], the larger one at a tie, with
    the sign of [x] when that integer is zero; NaN, the infinities and the
    integers are returned as they are. *)
Definition Math_round (x : float) : float :=
  match Prim2SF x with
  | S754_finite s m (Zneg k) =>
      let n := if s then Zneg m else Zpos m in
      match ((2 * n + 2 ^ Zpos k) / 2 ^ (Zpos k + 1))%Z with
      | Z0 => if s then -0 else 0
      | r => Z_to_Number r
      end
  | _ => x
  end.

(** The Numbers that are false in a condition: the zeros and NaN. *)
Definition falsy (x : float) : bool := is_nan x || (x =? 0).

(** [x || y] on Numbers. *)
Definition or_else (x y : float) : float := if falsy x then y else x.

(** [parseFloat] applied to a Number reads back the decimal form of the
    Number, which denotes the Number itself; the form of -0 is ["0"]. *)
Definition parseFloat_Number (x : float) : float :=
  if is_negative_zero x then 0 else x.

(** ** The math utilities of the shared script *)

Definition clamp (value min max : float) : float :=
  Math_min (Math_max value min) max.

Definition lerp (start end_ t : float) : float :=
  start + (end_ - start) * t.

(** ** Validation and input handling *)

(** The six inputs [initPortfolioCalculator] listens to; the [id] of the
    target of an event is one of them. *)
Inductive InputId :=
  | id_portfolioSize
  | id_stockAllocation
  | id_bondAllocation
  | id_btcAllocation
  | id_timeHorizon
  | id_startYear.

(** The assignments [portfolioCalc.field = v]. *)
Definition set_portfolioSize (v : float) (pc : PortfolioCalc) := {|
  portfolioSize := v;
  stockAllocation := stockAllocation pc;
  bondAllocation := bondAllocation pc;
  btcAllocation := btcAllocation pc;
  timeHorizon := timeHorizon pc;
  startYear := startYear pc;
  minPortfolioSize := minPortfolioSize pc;
  maxPortfolioSize := maxPortfolioSize pc;
  minAllocation := minAllocation pc;
  maxAllocation := maxAllocation pc;
  historicalReturns := historicalReturns pc
|}.

Definition set_stockAllocation (v : float) (pc : PortfolioCalc) := {|
  portfolioSize := portfolioSize pc;
  stockAllocation := v;
  bondAllocation := bondAllocation pc;
  btcAllocation := btcAllocation pc;
  timeHorizon := timeHorizon pc;
  startYear := startYear pc;
  minPortfolioSize := minPortfolioSize pc;
  maxPortfolioSize := maxPortfolioSize pc;
  minAllocation := minAllocation pc;
  maxAllocation := maxAllocation pc;
  historicalReturns := historicalReturns pc
|}.

Definition set_bondAllocation (v : float) (pc : PortfolioCalc) := {|
  portfolioSize := portfolioSize pc;
  stockAllocation := stockAllocation pc;
  bondAllocation := v;
  btcAllocation := btcAllocation pc;
  timeHorizon := timeHorizon pc;
  startYear := startYear pc;
  minPortfolioSize := minPortfolioSize pc;
  maxPortfolioSize := maxPortfolioSize pc;
  minAllocation := minAllocation pc;
  maxAllocation := maxAllocation pc;
  historicalReturns := historicalReturns pc
|}.

Definition set_btcAllocation (v : float) (pc : PortfolioCalc) := {|
  portfolioSize := portfolioSize pc;
  stockAllocation := stockAllocation pc;
  bondAllocation := bondAllocation pc;
  btcAllocation := v;
  timeHorizon := timeHorizon pc;
  startYear := startYear pc;
  minPortfolioSize := minPortfolioSize pc;
  maxPortfolioSize := maxPortfolioSize pc;
  minAllocation := minAllocation pc;
  maxAllocation := maxAllocation pc;
  historicalReturns := historicalReturns pc
|}.

Definition set_timeHorizon (v : float) (pc : PortfolioCalc) := {|
  portfolioSize := portfolioSize pc;
  stockAllocation := stockAllocation pc;
  bondAllocation := bondAllocation pc;
  btcAllocation := btcAllocation pc;
  timeHorizon := v;
  startYear := startYear pc;
  minPortfolioSize := minPortfolioSize pc;
  maxPortfolioSize := maxPortfolioSize pc;
  minAllocation := minAllocation pc;
  maxAllocation := maxAllocation pc;
  historicalReturns := historicalReturns pc
|}.

Definition set_startYear (v : float) (pc : PortfolioCalc) := {|
  portfolioSize := portfolioSize pc;
  stockAllocation := stockAllocation pc;
  bondAllocation := bondAllocation pc;
  btcAllocation := btcAllocation pc;
  timeHorizon := timeHorizon pc;
  startYear := v;
  minPortfolioSize := minPortfolioSize pc;
  maxPortfolioSize := maxPortfolioSize pc;
  minAllocation := minAllocation pc;
  maxAllocation := maxAllocation pc;
  historicalReturns := historicalReturns pc
|}.

(** [portfolioCalc[id] = v]. *)
Definition set_field (id : InputId) (v : float)
    : PortfolioCalc -> PortfolioCalc :=
  match id with
  | id_portfolioSize => set_portfolioSize v
  | id_stockAllocation => set_stockAllocation v
  | id_bondAllocation => set_bondAllocation v
  | id_btcAllocation => set_btcAllocation v
  | id_timeHorizon => set_timeHorizon v
  | id_startYear => set_startYear v
  end.

(** An assignment to the calculator state. *)
Definition modify (f : PortfolioCalc -> PortfolioCalc) : Calc unit :=
  fun pc => (tt, f pc).

Notation "'let*' x ':=' m 'in' k" := (bind m (fun x => k))
  (at level 10, x name, m at level 100, k at level 200).

Notation "m ;; k" := (bind m (fun _ => k))
  (at level 100, k at level 200, right associativity).

(** [validatePortfolioSize(value)], called on a Number. *)
Definition validatePortfolioSize (value : float) : Calc bool :=
  let size := parseFloat_Number value in
  if is_nan size then ret false
  else
    let* min := gets minPortfolioSize in
    let* max := gets maxPortfolioSize in
    ret ((min <=? size) && (size <=? max)).

Definition validateAllocation (stock bond btc : float) : Calc bool :=
  let total := stock + bond + btc in
  let tolerance := 0.1 in
  let* min := gets minAllocation in
  let* max := gets maxAllocation in
  ret ((abs (total - 100) <=? tolerance) &&
       (min <=? stock) && (stock <=? max) &&
       (min <=? bond) && (bond <=? max) &&
       (min <=? btc) && (btc <=? max)).

Section Inputs.

(** [parseFloat] on the text of an input: the Number the longest numeric
    prefix denotes, NaN when there is none. *)
Variable parseFloat : string -> float.

(** [sanitizeInput(value, min, max)]; the defaults of [min] and [max] are
    the infinities. *)
Definition sanitizeInput (value : string) (min max : float) : float :=
  let num := parseFloat value in
  if is_nan num then 0
  else Math_max min (Math_min max num).

(** The assignments of [handleInputChange] to [portfolioCalc] for an event
    whose target has the id [id] and the text [text].  What the handler
    writes to the page afterwards (slider positions, displays, metrics and
    chart) is not part of the calculator state. *)
Definition handleInputChange (id : InputId) (text : string) : Calc unit :=
  let value := sanitizeInput text neg_infinity infinity in
  match id with
  | id_portfolioSize =>
      let* valid := validatePortfolioSize value in
      let* min := gets minPortfolioSize in
      let* max := gets maxPortfolioSize in
      let value :=
        if valid then value else Math_max min (Math_min max value) in
      modify (set_field id value)
  | id_btcAllocation =>
      let value := clamp value 0 50 in
      modify (set_btcAllocation value) ;;
      let remaining := 100 - value in
      let* stock := gets stockAllocation in
      let* bond := gets bondAllocation in
      let ratio := or_else (stock / (stock + bond)) 0.6 in
      modify (set_stockAllocation (Math_round (remaining * ratio))) ;;
      let* stock := gets stockAllocation in
      modify (set_bondAllocation (remaining - stock))
  | id_stockAllocation | id_bondAllocation =>
      let value := clamp value 0 100 in
      modify (set_field id value) ;;
      let* stock := gets stockAllocation in
      let* bond := gets bondAllocation in
      let stockBond := stock + bond in
      let* btc := gets btcAllocation in
      (if 100 <? stockBond then
         match id with
         | id_stockAllocation =>
             modify (set_bondAllocation (100 - value - btc))
         | _ => modify (set_stockAllocation (100 - value - btc))
         end
       else ret tt) ;;
      let* stock := gets stockAllocation in
      let* bond := gets bondAllocation in
      modify (set_btcAllocation (clamp (100 - stock - bond) 0 100))
  | _ => modify (set_field id value)
  end.

(** The state after a sequence of events. *)
Definition handle_events (events : list (InputId * string))
    (pc : PortfolioCalc) : PortfolioCalc :=
  fold_left (fun pc e => snd (handleInputChange e.1 e.2 pc)) events pc.

End Inputs.

(** ** [calculateSharpeRatio] *)

Definition calculateSharpeRatio (impl : float -> float -> float)
    (returns : list float) (riskFreeRate : float) : float :=
  let avgReturn := reduce_sum returns / Number_of_nat (length returns) in
  let variance :=
    fold_left (fun sum r => sum + Math_pow impl (r - avgReturn) 2) returns 0
    / Number_of_nat (length returns) in
  let stdDev := PrimFloat.sqrt variance in
  if stdDev =? 0 then 0 else (avgReturn - riskFreeRate) / stdDev.

(** ** Local storage

    [localStorage], taken to be available, is a finite map from keys to
    strings.  Writing to it throws when the quota is exceeded, which
    [accepts] decides; reading and removing do not throw.  The value
    space of the page and its [JSON.stringify] (the string handed to
    [setItem], [None] when it throws) and [JSON.parse] ([None] when it
    throws) are parameters. *)
Section Storage.

Variable Value : Type.
Variable JSON_stringify : Value -> option string.
Variable JSON_parse : string -> option Value.
Variable accepts : gmap string string -> bool.

Definition STORAGE_PREFIX : string := "bfi_".

Definition saveToStorage (key : string) (value : Value)
    (storage : gmap string string) : bool * gmap string string :=
  match JSON_stringify value with
  | Some text =>
      let storage' := <[STORAGE_PREFIX +:+ key := text]> storage in
      if accepts storage' then (true, storage') else (false, storage)
  | None => (false, storage)
  end.

Definition loadFromStorage (key : string) (defaultValue : Value)
    (storage : gmap string string) : Value :=
  match storage !! (STORAGE_PREFIX +:+ key) with
  | Some item =>
      if decide (item = "") then defaultValue
      else match JSON_parse item with
           | Some value => value
           | None => defaultValue
           end
  | None => defaultValue
  end.

Definition removeFromStorage (key : string) (storage : gmap string string)
    : bool * gmap string string :=
  (true, delete (STORAGE_PREFIX +:+ key) storage).

End Storage.

(** ** Reading progress

    [readingProgress.chapters] is an object used as a map from chapter
    identifiers to records; it is a finite map here, which is what the object
    is for every identifier but ["__proto__"].  [completed] is the truth
    value of the property of that name. *)
Record Chapter := {
  completed : bool;
  timestamp : float
}.

Section ReadingProgress.

Variable JSON_stringify : gmap string Chapter -> option string.
Variable JSON_parse : string -> option (gmap string Chapter).
Variable accepts : gmap string string -> bool.

(** The state of the page: the chapters in memory and the local storage. *)
Record Page := {
  chapters : gmap string Chapter;
  storage : gmap string string
}.

(** The page as the script leaves it when it has loaded. *)
Definition page_load (storage : gmap string string) : Page := {|
  chapters := loadFromStorage _ JSON_parse "reading_progress" ∅ storage;
  storage := storage
|}.

(** [readingProgress.markRead(chapterId)] at the time [now]; the update of
    the page it ends with changes neither field. *)
Definition markRead (chapterId : string) (now : float) (page : Page) : Page :=
  let chapters' :=
    <[chapterId := {| completed := true; timestamp := now |}]>
      (chapters page) in
  {| chapters := chapters';
     storage := snd (saveToStorage _ JSON_stringify accepts
                       "reading_progress" chapters' (storage page)) |}.

Definition isRead (chapterId : string) (page : Page) : bool :=
  match chapters page !! chapterId with
  | Some chapter => completed chapter
  | None => false
  end.

(** [Object.values(this.chapters).filter(c => c.completed).length]. *)
Definition readCount (page : Page) : nat :=
  size (filter (fun kc => completed kc.2 = true) (chapters page)).

Definition getProgress (page : Page) : float :=
  let totalChapters := 13 in
  (Number_of_nat (readCount page) / totalChapters) * 100.

End ReadingProgress.

(** * Facts about Number arithmetic

    Each fact is read off the [SpecFloat] definition of the operation through
    the specification of the primitive. *)
Section NumberFacts.

(** A Number is determined by its [SpecFloat] image. *)
Lemma SF_eq x s : Prim2SF x = s -> x = SF2Prim s.
Proof. intros <-. symmetry. apply SF2Prim_Prim2SF. Qed.

Lemma SF_zero x s : Prim2SF x = S754_zero s -> signed_zero x.
Proof.
  intros H. apply SF_eq in H. subst x. destruct s; [right | left]; reflexivity.
Qed.

Lemma SF_nan x : Prim2SF x = S754_nan -> x = nan.
Proof. intros H. apply SF_eq in H. exact H. Qed.

Lemma signed_zero_SF x : signed_zero x -> exists s, Prim2SF x = S754_zero s.
Proof. intros [-> | ->]; eexists; reflexivity. Qed.

Lemma zero_or_nan_SF x :
  zero_or_nan x <-> (exists s, Prim2SF x = S754_zero s) \/ Prim2SF x = S754_nan.
Proof.
  split.
  - intros [H | ->]; [left; now apply signed_zero_SF | right; reflexivity].
  - intros [[s H] | H].
    + left. now apply SF_zero in H.
    + right. now apply SF_nan.
Qed.

Lemma mul_zero_or_nan z x : zero_or_nan z -> zero_or_nan (z * x).
Proof.
  rewrite !zero_or_nan_SF, FloatAxioms.mul_spec. unfold SF64mul.
  intros [[s ->] | ->]; destruct (Prim2SF x); cbn; eauto.
Qed.

Lemma div_zero_or_nan z x : zero_or_nan z -> zero_or_nan (z / x).
Proof.
  rewrite !zero_or_nan_SF, FloatAxioms.div_spec. unfold SF64div.
  intros [[s ->] | ->]; destruct (Prim2SF x); cbn; eauto.
Qed.

Lemma SFsub_diag x :
  SF64sub x x = S754_zero false \/ SF64sub x x = S754_nan.
Proof.
  destruct x as [[]|[]| |s m e]; cbn; auto.
  left. rewrite Z.sub_diag. reflexivity.
Qed.

Lemma sub_diag_zero_or_nan x : zero_or_nan (x - x).
Proof.
  rewrite zero_or_nan_SF, FloatAxioms.sub_spec.
  destruct (SFsub_diag (Prim2SF x)) as [-> | ->]; eauto.
Qed.

Lemma sub_diag x : finite_number x = true -> x - x = 0.
Proof.
  unfold finite_number. intros H. apply Prim2SF_inj.
  rewrite FloatAxioms.sub_spec.
  destruct (Prim2SF x) as [[]|[]| |s m e]; try discriminate; try reflexivity.
  cbn. rewrite Z.sub_diag. reflexivity.
Qed.

Lemma sub_same_number p v : same_number p v -> zero_or_nan (p - v).
Proof.
  intros [-> | [[-> | ->] [-> | ->]]].
  - apply sub_diag_zero_or_nan.
  - left; left; reflexivity.
  - left; left; reflexivity.
  - left; right; reflexivity.
  - left; left; reflexivity.
Qed.

Lemma SFcompare_refl x : SFcompare x x <> Some Lt.
Proof.
  destruct x as [s|s| |s m e]; cbn; try discriminate.
  - destruct s; discriminate.
  - destruct s; rewrite Z.compare_refl, Pos.compare_cont_refl; discriminate.
Qed.

Lemma ltb_irrefl x : (x <? x) = false.
Proof.
  rewrite FloatAxioms.ltb_spec. unfold SFltb.
  pose proof (SFcompare_refl (Prim2SF x)).
  destruct (SFcompare (Prim2SF x) (Prim2SF x)) as [[]|]; congruence.
Qed.

Lemma SFcompare_Eq x y :
  SFcompare x y = Some Eq ->
  x = y \/ (exists s t, x = S754_zero s /\ y = S754_zero t).
Proof.
  destruct x as [s|s| |s m e], y as [t|t| |t n f]; cbn; try discriminate;
    try (destruct s; discriminate); try (destruct t; discriminate).
  - eauto.
  - destruct s, t; try discriminate; auto.
  - destruct s, t; try discriminate;
      destruct (Z.compare_spec e f) as [-> | |]; try discriminate;
      intros H; left; f_equal.
    + injection H as H.
      destruct (Pos.compare_cont Eq m n) eqn:E; try discriminate.
      now apply Pos.compare_eq.
    + injection H as H. now apply Pos.compare_eq.
Qed.

Lemma leb_not_ltb p v :
  (p <=? v) = true -> (p <? v) = false -> same_number p v.
Proof.
  rewrite FloatAxioms.leb_spec, FloatAxioms.ltb_spec. unfold SFleb, SFltb.
  intros H1 H2.
  destruct (SFcompare (Prim2SF p) (Prim2SF v)) as [[]|] eqn:E; try discriminate.
  apply SFcompare_Eq in E as [E | (s & t & Es & Et)].
  - left. now apply Prim2SF_inj.
  - right. split; eapply SF_zero; eassumption.
Qed.

Lemma leb_same_number p q v :
  same_number p q -> (q <=? v) = true -> (p <=? v) = true.
Proof.
  intros [-> | [Hp Hq]]; [easy|].
  rewrite !FloatAxioms.leb_spec.
  apply signed_zero_SF in Hp as [s ->]. apply signed_zero_SF in Hq as [t ->].
  now destruct (Prim2SF v).
Qed.

Lemma zero_or_nan_not_gt d : zero_or_nan d -> (0 <? d) = false.
Proof. intros [[-> | ->] | ->]; reflexivity. Qed.

(** Rounding keeps the sign it is given. *)
Lemma binary_round_aux_sign mx ex lx :
  match binary_round_aux prec emax false mx ex lx with
  | S754_zero s | S754_infinity s | S754_finite s _ _ => s = false
  | S754_nan => True
  end.
Proof.
  unfold binary_round_aux.
  destruct (shr_fexp prec emax mx ex lx) as [mrs' e'].
  destruct (shr_fexp prec emax _ e' loc_Exact) as [mrs'' e''].
  destruct (shr_m mrs''); auto.
  destruct (e'' <=? emax - prec)%Z; auto.
Qed.

(** The Number of a length is never negative. *)
Lemma Number_of_nat_sign n :
  match Prim2SF (Number_of_nat n) with
  | S754_zero s | S754_infinity s | S754_finite s _ _ => s = false
  | S754_nan => True
  end.
Proof.
  unfold Number_of_nat. rewrite of_uint63_spec.
  pose proof (Uint63.to_Z_bounded (Uint63.of_Z (Z.of_nat n))) as [H _].
  destruct (Uint63.to_Z _) as [|p|p]; cbn; auto.
  - unfold binary_round.
    destruct (shl_align p 0 _) as [mz ez]. apply binary_round_aux_sign.
  - lia.
Qed.

(** A length that divides a sum into a finite mean divides zero into zero. *)
Lemma zero_div_length s n c :
  finite_number c = true -> s / Number_of_nat n = c -> 0 / Number_of_nat n = 0.
Proof.
  unfold finite_number. intros Hc Hs. rewrite <- Hs in Hc. clear Hs.
  apply Prim2SF_inj. rewrite FloatAxioms.div_spec in *.
  pose proof (Number_of_nat_sign n) as Hn.
  destruct (Prim2SF (Number_of_nat n)) as [t|t| |t m e]; subst; cbn.
  - destruct (Prim2SF s) as [[]|[]| |[] ? ?]; discriminate.
  - reflexivity.
  - destruct (Prim2SF s) as [[]|[]| |[] ? ?]; discriminate.
  - reflexivity.
Qed.

(** Multiplying by one is exact: the product of the mantissa with 2^52 is
    shifted back by 52 digits with nothing lost. *)
Lemma SFmul_one_r s m e :
  bounded prec emax m e = true ->
  SF64mul (S754_finite s m e) (Prim2SF 1) = S754_finite s m e.
Proof.
  intros Hb. apply andb_prop in Hb as [Hc He].
  unfold canonical_mantissa in Hc. apply Z.eqb_eq in Hc.
  change (Prim2SF 1) with (S754_finite false 4503599627370496 (-52)).
  unfold SF64mul, SFmul. rewrite xorb_false_r.
  rewrite Pos.mul_comm.
  let t := eval cbv [Pos.mul] in (4503599627370496 * m)%positive in
  change (4503599627370496 * m)%positive with t.
  unfold binary_round_aux.
  unfold shr_fexp at 1.
  cbn [Zdigits2 digits2_pos].
  rewrite !Pos2Z.inj_succ.
  match goal with |- context [fexp prec emax ?a] =>
    replace a with (Z.pos (digits2_pos m) + e)%Z by lia end.
  rewrite Hc.
  replace (e - (e + -52))%Z with 52%Z by lia.
  cbn [shr_record_of_loc shr].
  cbn [SpecFloat.iter_pos shr_1 orb].
  cbn [shr_m loc_of_shr_record round_nearest_even].
  unfold shr_fexp. cbn [Zdigits2].
  replace (e + -52 + 52)%Z with e by lia.
  rewrite Hc, Z.sub_diag. cbn [shr shr_record_of_loc shr_m].
  rewrite He. reflexivity.
Qed.

Lemma mul_1_r x : x * 1 = x.
Proof.
  apply Prim2SF_inj. rewrite FloatAxioms.mul_spec.
  pose proof (Prim2SF_valid x) as Hv.
  destruct (Prim2SF x) as [s|s| |s m e].
  - destruct s; reflexivity.
  - destruct s; reflexivity.
  - reflexivity.
  - apply SFmul_one_r. exact Hv.
Qed.

End NumberFacts.

(** * The simulator *)
Section Simulator.

Context (impl : float -> float -> float).

(** ** The loop, one iteration at a time *)

Lemma for_loop_S s b c sy n i v pc :
  for_loop s b c sy (S n) i v pc
  = for_loop s b c sy n (i + 1) (fst (loop_body s b c sy i v pc)) pc.
Proof. reflexivity. Qed.

Lemma loop_body_returns s b c sy i v pc :
  results_returns (fst (loop_body s b c sy i v pc))
  = results_returns v ++ [yearReturn (historicalReturns pc) s b c (sy + i)].
Proof. reflexivity. Qed.

Lemma loop_body_value s b c sy i v pc :
  value (fst (loop_body s b c sy i v pc))
  = value v * (1 + yearReturn (historicalReturns pc) s b c (sy + i) / 100).
Proof. reflexivity. Qed.

Lemma loop_body_peak s b c sy i v pc :
  let value' := value (fst (loop_body s b c sy i v pc)) in
  peak (fst (loop_body s b c sy i v pc))
  = if peak v <? value' then value' else peak v.
Proof. reflexivity. Qed.

Lemma loop_body_maxDrawdown s b c sy i v pc :
  let v' := fst (loop_body s b c sy i v pc) in
  let drawdown := (peak v' - value v') / peak v' * 100 in
  results_maxDrawdown v'
  = if results_maxDrawdown v <? drawdown then drawdown
    else results_maxDrawdown v.
Proof. reflexivity. Qed.

(** ** The calculator state is read, never written *)

Lemma for_loop_state s b c sy n i v pc :
  snd (for_loop s b c sy n i v pc) = pc.
Proof.
  revert i v. induction n as [|n IH]; intros i v; [reflexivity|].
  rewrite for_loop_S. apply IH.
Qed.

Lemma simulatePortfolio_state iv s b c ys sy pc :
  snd (simulatePortfolio impl iv s b c ys sy pc) = pc.
Proof.
  unfold simulatePortfolio, bind.
  pose proof (for_loop_state s b c sy (Z.to_nat ys) 0 (loop_start iv) pc) as H.
  destruct (for_loop _ _ _ _ _ _ _ pc) as [v pc']. exact H.
Qed.

(** Of the state, only the tables matter. *)
Lemma for_loop_table s b c sy n i v pc pc' :
  historicalReturns pc = historicalReturns pc' ->
  fst (for_loop s b c sy n i v pc) = fst (for_loop s b c sy n i v pc').
Proof.
  intros H. revert i v. induction n as [|n IH]; intros i v; [reflexivity|].
  rewrite !for_loop_S.
  replace (fst (loop_body s b c sy i v pc'))
    with (fst (loop_body s b c sy i v pc)); [apply IH|].
  unfold loop_body, bind, gets. cbn. rewrite H. reflexivity.
Qed.

Lemma simulate_table iv s b c ys sy pc pc' :
  historicalReturns pc = historicalReturns pc' ->
  simulate impl pc iv s b c ys sy = simulate impl pc' iv s b c ys sy.
Proof.
  intros H. unfold simulate, simulatePortfolio, bind.
  pose proof (for_loop_table s b c sy (Z.to_nat ys) 0 (loop_start iv) _ _ H)
    as E.
  destruct (for_loop _ _ _ _ _ _ _ pc) as [v q],
           (for_loop _ _ _ _ _ _ _ pc') as [v' q'].
  cbn in E. subst v'. reflexivity.
Qed.

(** ** The fields of the result in terms of the loop *)

Abbreviation loop_end pc iv s b c ys sy :=
  (fst (for_loop s b c sy (Z.to_nat ys) 0 (loop_start iv) pc)).

Ltac simulate_field :=
  unfold simulate, simulatePortfolio, bind;
  match goal with |- context [for_loop ?s ?b ?c ?sy ?n ?i ?v ?pc] =>
    destruct (for_loop s b c sy n i v pc) end;
  reflexivity.

Lemma simulate_returns pc iv s b c ys sy :
  returns (simulate impl pc iv s b c ys sy)
  = results_returns (loop_end pc iv s b c ys sy).
Proof. simulate_field. Qed.

Lemma simulate_values pc iv s b c ys sy :
  values (simulate impl pc iv s b c ys sy)
  = results_values (loop_end pc iv s b c ys sy).
Proof. simulate_field. Qed.

Lemma simulate_finalValue pc iv s b c ys sy :
  finalValue (simulate impl pc iv s b c ys sy)
  = value (loop_end pc iv s b c ys sy).
Proof. simulate_field. Qed.

Lemma simulate_totalReturn pc iv s b c ys sy :
  totalReturn (simulate impl pc iv s b c ys sy)
  = (value (loop_end pc iv s b c ys sy) - iv) / iv * 100.
Proof. simulate_field. Qed.

Lemma simulate_maxDrawdown pc iv s b c ys sy :
  maxDrawdown (simulate impl pc iv s b c ys sy)
  = results_maxDrawdown (loop_end pc iv s b c ys sy).
Proof. simulate_field. Qed.

(** ** The shipped tables *)

Lemma shipped_outside year :
  ~ (2014 <= year <= 2024)%Z ->
  stocks shipped !! year = None /\ bonds shipped !! year = None
  /\ bitcoin shipped !! year = None.
Proof.
  intros H. repeat split; apply not_elem_of_list_to_map_1; cbn;
    rewrite !elem_of_cons, elem_of_nil; lia.
Qed.

(** [??] falls back on a missing entry only: the zero of the bonds in 2018
    is kept. *)
Lemma bonds_2018_kept :
  nullish (bonds shipped !! 2018%Z) (bonds shipped !! 2024%Z) = Some 0.
Proof. reflexivity. Qed.

Lemma yearReturn_outside s b c year :
  ~ (2014 <= year <= 2024)%Z ->
  yearReturn shipped s b c year = yearReturn shipped s b c 2024.
Proof.
  intros H. destruct (shipped_outside year H) as (Hs & Hb & Hc).
  unfold yearReturn. rewrite Hs, Hb, Hc. reflexivity.
Qed.

Lemma tabulated_year year :
  (2014 <= year <= 2024)%Z ->
  In year [2014; 2015; 2016; 2017; 2018; 2019; 2020; 2021; 2022; 2023; 2024]%Z.
Proof. intros H. cbn. lia. Qed.

(** With nothing allocated every year returns a zero, negative in the years
    in which all three assets fell. *)
Lemma yearReturn_no_allocation year :
  signed_zero (yearReturn shipped 0 0 0 year).
Proof.
  destruct (decide (2014 <= year <= 2024)%Z) as [H | H].
  - apply tabulated_year in H. cbn [In] in H.
    repeat (destruct H as [<- | H]; [vm_compute; auto|]). destruct H.
  - rewrite (yearReturn_outside _ _ _ _ H). vm_compute; auto.
Qed.

(** ** Invariants of the loop *)

(** The returns pushed do not depend on the values. *)
Lemma for_loop_returns_indep s b c sy n i v1 v2 pc :
  results_returns v1 = results_returns v2 ->
  results_returns (fst (for_loop s b c sy n i v1 pc))
  = results_returns (fst (for_loop s b c sy n i v2 pc)).
Proof.
  revert i v1 v2. induction n as [|n IH]; intros i v1 v2 H; [exact H|].
  rewrite !for_loop_S. apply IH. rewrite !loop_body_returns, H. reflexivity.
Qed.

(** Beyond the table every year is the year 2024. *)
Lemma for_loop_beyond s b c sy n i v pc :
  historicalReturns pc = shipped -> (2024 < sy + i)%Z ->
  results_returns (fst (for_loop s b c sy n i v pc))
  = results_returns v ++ replicate n (yearReturn shipped s b c 2024).
Proof.
  intros Hpc. revert i v. induction n as [|n IH]; intros i v H.
  - cbn. now rewrite app_nil_r.
  - rewrite for_loop_S, IH by lia.
    rewrite loop_body_returns, Hpc, yearReturn_outside by lia.
    now rewrite <- app_assoc.
Qed.

(** From a zero initial value: the value stays a zero or becomes NaN, the
    peak stays the zero, the drawdown is NaN and never exceeds the maximum. *)
Lemma loop_body_zero s b c sy i v pc :
  signed_zero (peak v) -> zero_or_nan (value v) -> results_maxDrawdown v = 0 ->
  let v' := fst (loop_body s b c sy i v pc) in
  peak v' = peak v /\ zero_or_nan (value v') /\ results_maxDrawdown v' = 0.
Proof.
  intros Hp Hv Hm v'.
  assert (Hv' : zero_or_nan (value v')).
  { unfold v'. rewrite loop_body_value. now apply mul_zero_or_nan. }
  assert (Hp' : peak v' = peak v).
  { unfold v'. rewrite loop_body_peak. cbv zeta. fold v'.
    destruct Hp as [-> | ->], Hv' as [[-> | ->] | ->]; reflexivity. }
  repeat split; [exact Hp' | exact Hv' |].
  unfold v'. rewrite loop_body_maxDrawdown. cbv zeta. fold v'.
  rewrite Hp', Hm.
  destruct Hp as [-> | ->], Hv' as [[-> | ->] | ->]; reflexivity.
Qed.

Lemma for_loop_zero s b c sy n i v pc :
  signed_zero (peak v) -> zero_or_nan (value v) -> results_maxDrawdown v = 0 ->
  let v' := fst (for_loop s b c sy n i v pc) in
  peak v' = peak v /\ zero_or_nan (value v') /\ results_maxDrawdown v' = 0.
Proof.
  revert i v. induction n as [|n IH]; intros i v Hp Hv Hm; [now cbn|].
  cbv zeta. rewrite for_loop_S.
  destruct (loop_body_zero s b c sy i v pc Hp Hv Hm) as (Hp' & Hv' & Hm').
  rewrite <- Hp' in Hp.
  destruct (IH (i + 1)%Z _ Hp Hv' Hm') as (Hp'' & Hv'' & Hm'').
  rewrite Hp'', Hp'. auto.
Qed.

(** Every iteration pushes one return. *)
Lemma for_loop_returns_length s b c sy n i v pc :
  length (results_returns (fst (for_loop s b c sy n i v pc)))
  = (length (results_returns v) + n)%nat.
Proof.
  revert i v. induction n as [|n IH]; intros i v; [cbn; lia|].
  rewrite for_loop_S, IH, loop_body_returns, length_app. cbn. lia.
Qed.

(** With nothing allocated the value never moves. *)
Lemma for_loop_no_allocation sy n i v pc :
  historicalReturns pc = shipped ->
  Forall (fun r => (r =? 0) = true) (results_returns v) ->
  let v' := fst (for_loop 0 0 0 sy n i v pc) in
  value v' = value v /\ Forall (fun r => (r =? 0) = true) (results_returns v').
Proof.
  intros Hpc. revert i v. induction n as [|n IH]; intros i v Hr; [now cbn|].
  cbv zeta. rewrite for_loop_S.
  pose proof (yearReturn_no_allocation (sy + i)) as Hz.
  destruct (IH (i + 1)%Z (fst (loop_body 0 0 0 sy i v pc))) as [Hv' Hr'].
  - rewrite loop_body_returns, Hpc. apply Forall_app. split; [exact Hr|].
    apply Forall_singleton. destruct Hz as [-> | ->]; reflexivity.
  - split; [|exact Hr'].
    rewrite Hv', loop_body_value, Hpc.
    destruct Hz as [-> | ->];
      (replace (1 + _ / 100) with 1 by reflexivity); apply mul_1_r.
Qed.

End Simulator.

(** * The shared helpers *)
Section Helpers.

Context (impl : float -> float -> float).

(** ** [calculateMaxDrawdown] *)

(** A drawdown whose numerator is a zero or NaN never exceeds the maximum 0. *)
Lemma drawdown_quiet p v :
  zero_or_nan (p - v) -> (0 <? (p - v) / p * 100) = false.
Proof.
  intros H. now apply zero_or_nan_not_gt, mul_zero_or_nan, div_zero_or_nan.
Qed.

Lemma drawdown_step_increasing peak prev v :
  same_number peak prev -> (prev <=? v) = true ->
  exists peak', drawdown_step (0, peak) v = (0, peak') /\ same_number peak' v.
Proof.
  intros Hs Hle. pose proof (leb_same_number _ _ _ Hs Hle) as Hle'.
  unfold drawdown_step. destruct (peak <? v) eqn:E.
  - exists v. rewrite drawdown_quiet by apply sub_diag_zero_or_nan.
    split; [reflexivity | now left].
  - exists peak. pose proof (leb_not_ltb _ _ Hle' E) as Hsn.
    rewrite drawdown_quiet by now apply sub_same_number. auto.
Qed.

Lemma fold_drawdown_increasing values :
  forall peak prev,
  same_number peak prev -> increasing values ->
  HdRel (fun a b => (a <=? b) = true) prev values ->
  fst (fold_left drawdown_step values (0, peak)) = 0.
Proof.
  induction values as [|v rest IH]; intros peak prev Hs Hsorted Hhd;
    [reflexivity|].
  cbn [fold_left]. inversion Hhd; subst. inversion Hsorted; subst.
  destruct (drawdown_step_increasing peak prev v) as (peak' & -> & Hs'); auto.
  eapply IH; eauto.
Qed.

Lemma calculateMaxDrawdown_increasing values :
  increasing values -> calculateMaxDrawdown values = 0.
Proof.
  destruct values as [|v0 rest]; intros Hsorted; [reflexivity|].
  unfold calculateMaxDrawdown. cbn [lookup list_lookup ToNumber fold_left].
  inversion Hsorted; subst.
  unfold drawdown_step at 2. rewrite ltb_irrefl.
  rewrite drawdown_quiet by apply sub_diag_zero_or_nan.
  apply fold_drawdown_increasing with (prev := v0); auto. now left.
Qed.

(** ** [calculateStdDev] and [calculateVolatility] *)

Lemma SFcompare_refl_Eq x : x <> S754_nan -> SFcompare x x = Some Eq.
Proof.
  destruct x as [s|s| |s m e]; cbn; try congruence.
  - destruct s; reflexivity.
  - destruct s; rewrite Z.compare_refl, Pos.compare_cont_refl; reflexivity.
Qed.

Lemma is_nan_nan x : is_nan x = true -> x = nan.
Proof.
  unfold is_nan. rewrite FloatAxioms.eqb_spec. unfold SFeqb. intros H.
  destruct (Prim2SF x) eqn:E; try (now apply SF_nan);
    rewrite SFcompare_refl_Eq in H by discriminate; discriminate.
Qed.

(** [Math.pow(d, 2)] is the rounded square. *)
Lemma Math_pow_2 d : Math_pow impl d 2 = d * d.
Proof.
  unfold Math_pow. change (is_nan 2) with false. change (2 =? 0) with false.
  change (2 =? 2) with true. cbv iota.
  destruct (is_nan d) eqn:E; [|reflexivity].
  apply is_nan_nan in E. subst d. reflexivity.
Qed.

Lemma calculateVolatility_population arr :
  calculateVolatility impl arr = population_std_dev arr.
Proof.
  unfold calculateVolatility, population_std_dev, population_mean.
  rewrite length_map. do 3 f_equal. apply map_ext. intros x. apply Math_pow_2.
Qed.

Lemma calculateStdDev_population arr :
  arr <> [] -> calculateStdDev impl arr = population_std_dev arr.
Proof.
  intros H. rewrite <- calculateVolatility_population.
  destruct arr; [contradiction | reflexivity].
Qed.

Lemma map_replicate {A B} (f : A -> B) n x :
  map f (replicate n x) = replicate n (f x).
Proof. induction n as [|n IH]; cbn; [reflexivity | now rewrite IH]. Qed.

Lemma reduce_sum_zeros n : reduce_sum (replicate n 0) = 0.
Proof.
  unfold reduce_sum. induction n as [|n IH]; [reflexivity|].
  cbn [replicate fold_left]. change (0 + 0) with 0. exact IH.
Qed.

Lemma population_std_dev_constant c n :
  finite_number c = true -> population_mean (replicate n c) = c ->
  population_std_dev (replicate n c) = 0.
Proof.
  intros Hc Hmean. unfold population_std_dev. rewrite Hmean.
  rewrite map_replicate, (sub_diag c Hc). change (0 * 0) with 0.
  unfold population_mean in *. rewrite length_replicate in *.
  rewrite reduce_sum_zeros, (zero_div_length _ _ _ Hc Hmean). reflexivity.
Qed.

End Helpers.

(** * The specification's claims about the simulator *)

(** The run [simulatePortfolio(1000000, 100, 0, 0, 3, 2014)] on the shipped
    tables, field by field. *)
Lemma simulate_2014_fields impl :
  let r := simulate impl portfolioCalc 1000000 100 0 0 3 2014 in
  years r = [2014; 2015; 2016]%Z
  /\ returns r = [13.7; 1.4; 12]
  /\ values r = [1137000; 1152918; 1291268.1600000001]
  /\ finalValue r = 1291268.1600000001
  /\ totalReturn r = 29.126816000000016.
Proof. cbv zeta. repeat split; vm_compute; reflexivity. Qed.

(** C1, as the specification states it, fails: all in stocks from 2014 for
    three years, the second value is 1137000 * 1.014 = 1152918, a hundred
    away from the 1153018 of the specification, and so the third value and the
    total return are not the stated ones either, whatever the engine. *)
Lemma simulate_2014_stated_values_fail :
  ~ exists impl,
      let r := simulate impl portfolioCalc 1000000 100 0 0 3 2014 in
      returns r = [13.7; 1.4; 12]
      /\ Forall2 (fun q x => within (1 # 100) q x = true)
           [1137000; 1153018; 129138016 # 100]%Q (values r)
      /\ within (1 # 200) (2914 # 100) (totalReturn r) = true.
Proof.
  intros (impl & _ & H & _).
  destruct (simulate_2014_fields impl) as (_ & _ & Hv & _).
  rewrite Hv in H. inversion H as [|? ? ? ? _ H']; subst.
  inversion H' as [|? ? ? ? H'' _]; subst.
  vm_compute in H''. discriminate.
Qed.

(** C1, amended: [simulatePortfolio(1000000, 100, 0, 0, 3, 2014)] on the
    shipped tables has the returns 13.7, 1.4 and 12 exactly, the values
    1137000, 1152918 and 1291268.16 up to rounding (less than a hundredth
    off), and a total return of 29.13 per cent to two decimals. *)
Theorem simulate_2014_stocks impl pc :
  historicalReturns pc = shipped ->
  let r := simulate impl pc 1000000 100 0 0 3 2014 in
  returns r = [13.7; 1.4; 12]
  /\ Forall2 (fun q x => within (1 # 100) q x = true)
       [1137000; 1152918; 129126816 # 100]%Q (values r)
  /\ within (1 # 200) (2913 # 100) (totalReturn r) = true.
Proof.
  intros Hpc. rewrite (simulate_table impl _ _ _ _ _ _ pc portfolioCalc Hpc).
  destruct (simulate_2014_fields impl) as (_ & Hr & Hv & _ & Ht).
  cbv zeta. rewrite Hr, Hv, Ht.
  split; [reflexivity|]. split; [|vm_compute; reflexivity].
  repeat constructor; vm_compute; reflexivity.
Qed.

Lemma simulate_2014_stocks_witness :
  let r := simulate unspecified_pow portfolioCalc 1000000 100 0 0 3 2014 in
  returns r = [13.7; 1.4; 12]
  /\ Forall2 (fun q x => within (1 # 100) q x = true)
       [1137000; 1152918; 129126816 # 100]%Q (values r)
  /\ within (1 # 200) (2913 # 100) (totalReturn r) = true.
Proof.
  exact (simulate_2014_stocks unspecified_pow portfolioCalc eq_refl).
Defined.

(** C2 fails on the code: from a zero initial value the total return is not
    zero but NaN, the quotient of a zero by the zero initial value, for every
    allocation, number of years and start year. *)
Theorem totalReturn_of_zero_is_nan impl pc iv s b c ys sy :
  signed_zero iv ->
  totalReturn (simulate impl pc iv s b c ys sy) = nan.
Proof.
  intros Hz. rewrite simulate_totalReturn.
  destruct (for_loop_zero s b c sy (Z.to_nat ys) 0 (loop_start iv) pc)
    as (_ & Hv & _); [exact Hz | left; exact Hz | reflexivity |].
  destruct Hz as [-> | ->], Hv as [[-> | ->] | ->]; reflexivity.
Qed.

Lemma totalReturn_of_zero_is_nan_witness :
  totalReturn (simulate unspecified_pow portfolioCalc 0 60 40 0 10 2014) = nan.
Proof.
  apply (totalReturn_of_zero_is_nan unspecified_pow portfolioCalc
           0 60 40 0 10 2014).
  left. reflexivity.
Defined.

(** C3: from a start year after 2024, on the shipped tables, every year of
    the run takes the three entries of 2024, which are 25, 1.2 and 120: each
    return is the weighted sum of those, for any allocation, initial value and
    number of years, as in [simulatePortfolio(X, e, b, c, 1, 2030)]. *)
Theorem fallback_to_2024 impl pc X e b c ys sy :
  historicalReturns pc = shipped -> (2024 < sy)%Z ->
  (forall year, (sy <= year)%Z ->
     nullish (stocks shipped !! year) (stocks shipped !! 2024%Z) = Some 25
     /\ nullish (bonds shipped !! year) (bonds shipped !! 2024%Z) = Some 1.2
     /\ nullish (bitcoin shipped !! year) (bitcoin shipped !! 2024%Z)
        = Some 120)
  /\ returns (simulate impl pc X e b c ys sy)
     = replicate (Z.to_nat ys) (e / 100 * 25 + b / 100 * 1.2 + c / 100 * 120)
  /\ (ys = 1%Z ->
      values (simulate impl pc X e b c ys sy)
      = [X * (1 + (e / 100 * 25 + b / 100 * 1.2 + c / 100 * 120) / 100)]).
Proof.
  intros Hpc Hsy. split; [|split].
  - intros year Hy.
    destruct (shipped_outside year) as (-> & -> & ->); [lia|].
    repeat split; reflexivity.
  - rewrite simulate_returns, for_loop_beyond by (auto; lia). reflexivity.
  - intros ->. rewrite simulate_values. change (Z.to_nat 1) with 1%nat.
    rewrite for_loop_S. cbn [for_loop ret fst].
    change (results_values (fst (loop_body e b c sy 0 (loop_start X) pc)))
      with [value (fst (loop_body e b c sy 0 (loop_start X) pc))].
    rewrite loop_body_value, Hpc, yearReturn_outside by lia. reflexivity.
Qed.

Lemma fallback_to_2024_witness :
  returns (simulate unspecified_pow portfolioCalc 1000000 60 30 10 1 2030)
  = [60 / 100 * 25 + 30 / 100 * 1.2 + 10 / 100 * 120].
Proof.
  apply (fallback_to_2024 unspecified_pow portfolioCalc 1000000 60 30 10 1 2030
           eq_refl).
  reflexivity.
Defined.

(** C4: with zero years the three sequences are empty, the final value is the
    initial value, and CAGR, volatility, maximum drawdown and Sharpe ratio are
    all zero, for every initial value, allocation, start year, calculator
    state and engine. *)
Theorem zero_years impl pc iv s b c sy :
  let r := simulate impl pc iv s b c 0 sy in
  years r = [] /\ values r = [] /\ returns r = []
  /\ finalValue r = iv
  /\ cagr r = 0 /\ volatility r = 0 /\ maxDrawdown r = 0 /\ sharpe r = 0.
Proof. cbv zeta. repeat split; reflexivity. Qed.

(** C5: from a zero initial value the peak stays that zero through every
    iteration, the drawdown computed against it (the NaN of a division of zero
    by zero) never exceeds the running maximum 0, as if it were zero, and the
    maximum drawdown of the result is zero, for every allocation, number of
    years and start year. *)
Theorem maxDrawdown_of_zero impl pc iv s b c ys sy :
  signed_zero iv ->
  (forall n,
     let v := fst (for_loop s b c sy n 0 (loop_start iv) pc) in
     peak v = iv
     /\ (0 <? (peak v - value v) / peak v * 100) = false
     /\ results_maxDrawdown v = 0)
  /\ maxDrawdown (simulate impl pc iv s b c ys sy) = 0.
Proof.
  intros Hz.
  assert (H : forall n,
    let v := fst (for_loop s b c sy n 0 (loop_start iv) pc) in
    peak v = iv
    /\ (0 <? (peak v - value v) / peak v * 100) = false
    /\ results_maxDrawdown v = 0).
  { intros n.
    destruct (for_loop_zero s b c sy n 0 (loop_start iv) pc)
      as (Hp & Hv & Hm); [exact Hz | left; exact Hz | reflexivity |].
    cbv zeta. rewrite Hp, Hm. cbn [peak loop_start].
    repeat split.
    destruct Hz as [-> | ->], Hv as [[-> | ->] | ->]; reflexivity. }
  split; [exact H|]. rewrite simulate_maxDrawdown. apply H.
Qed.

Lemma maxDrawdown_of_zero_witness :
  maxDrawdown (simulate unspecified_pow portfolioCalc 0 60 40 0 10 2014) = 0.
Proof.
  apply (maxDrawdown_of_zero unspecified_pow portfolioCalc 0 60 40 0 10 2014).
  left. reflexivity.
Defined.

(** C6: with nothing allocated to any asset, on the shipped tables, the run
    produces one return for each of its years, every one of them exactly zero
    (it compares equal to 0; it is the negative zero in a year in which all
    three assets fell), and the final value is the initial value itself, for
    every initial value, number of years and start year. *)
Theorem no_allocation impl pc iv ys sy :
  historicalReturns pc = shipped ->
  let r := simulate impl pc iv 0 0 0 ys sy in
  length (returns r) = Z.to_nat ys
  /\ Forall (fun x => (x =? 0) = true) (returns r)
  /\ finalValue r = iv.
Proof.
  intros Hpc. cbv zeta. rewrite simulate_returns, simulate_finalValue.
  destruct (for_loop_no_allocation sy (Z.to_nat ys) 0 (loop_start iv) pc Hpc)
    as [Hv Hr]; [constructor|].
  split; [|split; [exact Hr | exact Hv]].
  rewrite for_loop_returns_length. reflexivity.
Qed.

Lemma no_allocation_witness :
  let r := simulate unspecified_pow portfolioCalc 1000000 0 0 0 12 2012 in
  length (returns r) = 12%nat
  /\ Forall (fun x => (x =? 0) = true) (returns r)
  /\ finalValue r = 1000000.
Proof.
  exact (no_allocation unspecified_pow portfolioCalc 1000000 12 2012 eq_refl).
Defined.

(** C7: [calculateMaxDrawdown] returns exactly 0 for the empty sequence, for
    every sequence of one element and for every increasing sequence, and
    exactly 50 for [100, 50, 100]. *)
Theorem calculateMaxDrawdown_spec :
  (forall values,
     (length values <= 1)%nat \/ increasing values ->
     calculateMaxDrawdown values = 0)
  /\ calculateMaxDrawdown [100; 50; 100] = 50.
Proof.
  split; [|reflexivity].
  intros values [Hlen | Hinc]; [|now apply calculateMaxDrawdown_increasing].
  apply calculateMaxDrawdown_increasing.
  destruct values as [|x [|y rest]]; [constructor | repeat constructor |].
  cbn in Hlen. lia.
Qed.

Lemma calculateMaxDrawdown_spec_witness :
  calculateMaxDrawdown [100; 100; 250.5; 1000] = 0.
Proof.
  apply (proj1 calculateMaxDrawdown_spec). right.
  repeat constructor.
Defined.

(** The standard deviation of three equal 0.1 is 2^-56, not 0: their sum
    rounds up, the mean is one unit in the last place above 0.1. *)
Lemma calculateStdDev_three_tenths impl :
  population_mean [0.1; 0.1; 0.1] = 0.10000000000000002
  /\ calculateStdDev impl [0.1; 0.1; 0.1] = 0x1p-56
  /\ calculateVolatility impl [0.1; 0.1; 0.1] = 0x1p-56.
Proof. repeat split; vm_compute; reflexivity. Qed.

(** C8, as the specification states it, fails: the standard deviation of the
    constant sequence [0.1, 0.1, 0.1] does not compare equal to 0, whatever
    the engine. *)
Lemma calculateStdDev_constant_not_zero :
  ~ exists impl, (calculateStdDev impl (replicate 3 0.1) =? 0) = true.
Proof.
  intros [impl H]. change (replicate 3 0.1) with [0.1; 0.1; 0.1] in H.
  destruct (calculateStdDev_three_tenths impl) as (_ & E & _).
  rewrite E in H. vm_compute in H. discriminate.
Qed.

(** C8, amended: on a non-empty sequence [calculateStdDev] and
    [calculateVolatility] compute the population standard deviation, dividing
    by N and not by N - 1; [calculateStdDev] returns zero for the empty
    sequence, and exactly 0 for a constant sequence of a finite Number
    whenever the computed mean of the sequence is that Number; it is not 0
    for every constant sequence: the computed mean of [0.1, 0.1, 0.1] is
    0.10000000000000002 and the result is 2^-56. *)
Theorem calculateStdDev_spec impl :
  (forall arr, arr <> [] ->
     calculateStdDev impl arr = population_std_dev arr
     /\ calculateVolatility impl arr = population_std_dev arr)
  /\ (calculateStdDev impl [1; 3] = 1 /\ sample_std_dev [1; 3] <> 1)
  /\ calculateStdDev impl [] = 0
  /\ (forall c n,
        finite_number c = true -> (0 < n)%nat ->
        population_mean (replicate n c) = c ->
        calculateStdDev impl (replicate n c) = 0)
  /\ (population_mean (replicate 3 0.1) = 0.10000000000000002
      /\ calculateStdDev impl (replicate 3 0.1) = 0x1p-56
      /\ (0x1p-56 =? 0) = false).
Proof.
  split; [|split; [|split; [|split]]].
  - intros arr H. split.
    + now apply calculateStdDev_population.
    + apply calculateVolatility_population.
  - split; [vm_compute; reflexivity|]. vm_compute. discriminate.
  - reflexivity.
  - intros c n Hc Hn Hmean. rewrite calculateStdDev_population.
    + now apply population_std_dev_constant.
    + destruct n; [lia | discriminate].
  - change (replicate 3 0.1) with [0.1; 0.1; 0.1].
    destruct (calculateStdDev_three_tenths impl) as (Hm & Hs & _).
    split; [exact Hm | split; [exact Hs | reflexivity]].
Qed.

Lemma calculateStdDev_spec_witness :
  calculateStdDev unspecified_pow (replicate 3 5) = 0.
Proof.
  apply (proj1 (proj2 (proj2 (proj2 (calculateStdDev_spec unspecified_pow))))).
  - reflexivity.
  - lia.
  - reflexivity.
Defined.

(** C9: a call leaves the calculator state as it found it; a second call
    with the same arguments, made in the state the first one left, returns the
    same result; and of the state the result depends on the return tables
    only, so a call made after the other fields changed returns it too. *)
Theorem simulatePortfolio_pure impl iv s b c ys sy pc :
  let call := simulatePortfolio impl iv s b c ys sy in
  snd (call pc) = pc
  /\ fst (call (snd (call pc))) = fst (call pc)
  /\ (forall pc',
        historicalReturns pc' = historicalReturns pc ->
        fst (call pc') = fst (call pc)).
Proof.
  cbv zeta. rewrite simulatePortfolio_state. repeat split.
  intros pc' H. now apply simulate_table.
Qed.

Lemma simulatePortfolio_pure_witness :
  fst (simulatePortfolio unspecified_pow 250000 50 30 20 5 2016
         {| portfolioSize := 250000; stockAllocation := 50;
            bondAllocation := 30; btcAllocation := 20; timeHorizon := 5;
            startYear := 2016; minPortfolioSize := 10000;
            maxPortfolioSize := 1000000000; minAllocation := 0;
            maxAllocation := 100; historicalReturns := shipped |})
  = fst (simulatePortfolio unspecified_pow 250000 50 30 20 5 2016
           portfolioCalc).
Proof.
  apply (proj2 (proj2 (simulatePortfolio_pure unspecified_pow 250000 50 30 20 5
                         2016 portfolioCalc))).
  reflexivity.
Defined.

(** C10: the returns of a run do not depend on the initial value. *)
Theorem returns_independent_of_initialValue impl pc iv1 iv2 s b c ys sy :
  returns (simulate impl pc iv1 s b c ys sy)
  = returns (simulate impl pc iv2 s b c ys sy).
Proof.
  rewrite !simulate_returns. now apply for_loop_returns_indep.
Qed.

(** * The order of Numbers *)
Section NumberOrder.

Lemma is_nan_SF x : is_nan x = false <-> Prim2SF x <> S754_nan.
Proof.
  split.
  - intros H E. apply SF_nan in E. subst x. discriminate.
  - intros H. destruct (is_nan x) eqn:E; [|reflexivity].
    apply is_nan_nan in E. subst x. now destruct H.
Qed.

Lemma SFcompare_antisym x y :
  SFcompare y x = option_map CompOpp (SFcompare x y).
Proof.
  destruct x as [s|s| |s m e], y as [t|t| |t n f]; cbn; try reflexivity;
    try (destruct s; reflexivity); try (destruct t; reflexivity);
    try (destruct s, t; reflexivity).
  change (Pos.compare_cont Eq n m) with (Pos.compare n m).
  change (Pos.compare_cont Eq m n) with (Pos.compare m n).
  destruct s, t; try reflexivity;
    rewrite (Z.compare_antisym e f), (Pos.compare_antisym m n);
    destruct (e ?= f)%Z; cbn; try reflexivity;
    destruct (m ?= n)%positive; reflexivity.
Qed.

Lemma SFcompare_Some x y :
  x <> S754_nan -> y <> S754_nan -> exists c, SFcompare x y = Some c.
Proof.
  intros Hx Hy.
  destruct x as [s|s| |s m e], y as [t|t| |t n f]; cbn; try congruence; eauto.
Qed.

(** The comparison is a lexicographic one, hence transitive. *)
Lemma SFcompare_trans x y z c1 c2 :
  SFcompare x y = Some c1 -> SFcompare y z = Some c2 ->
  c1 <> Gt -> c2 <> Gt ->
  SFcompare x z = Some (match c1, c2 with Eq, Eq => Eq | _, _ => Lt end).
Proof.
  destruct x as [s|s| |s m e], y as [t|t| |t n f], z as [u|u| |u p g]; cbn;
    try discriminate;
    intros H1 H2 Hc1 Hc2; destruct c1, c2; try congruence;
    repeat match goal with b : bool |- _ => destruct b end;
    try discriminate; try reflexivity;
    change (Pos.compare_cont Eq m n) with (Pos.compare m n) in *;
    change (Pos.compare_cont Eq n p) with (Pos.compare n p) in *;
    change (Pos.compare_cont Eq m p) with (Pos.compare m p) in *;
    destruct (Z.compare_spec e f), (Z.compare_spec f g),
             (Z.compare_spec e g); try lia; try discriminate;
    try reflexivity; subst;
    destruct (Pos.compare_spec m n), (Pos.compare_spec n p),
             (Pos.compare_spec m p); try lia; try discriminate; reflexivity.
Qed.

Lemma ltb_leb x y : (x <? y) = true -> (x <=? y) = true.
Proof.
  rewrite FloatAxioms.ltb_spec, FloatAxioms.leb_spec. unfold SFltb, SFleb.
  now destruct (SFcompare _ _) as [[]|].
Qed.

Lemma leb_not_nan x y :
  (x <=? y) = true -> is_nan x = false /\ is_nan y = false.
Proof.
  rewrite FloatAxioms.leb_spec, !is_nan_SF. unfold SFleb.
  destruct (Prim2SF x), (Prim2SF y); cbn; try discriminate; split; discriminate.
Qed.

Lemma leb_ltb_false x y : (x <=? y) = true -> (y <? x) = false.
Proof.
  rewrite FloatAxioms.ltb_spec, FloatAxioms.leb_spec. unfold SFltb, SFleb.
  rewrite (SFcompare_antisym (Prim2SF x) (Prim2SF y)).
  now destruct (SFcompare _ _) as [[]|].
Qed.

Lemma same_number_leb x y :
  same_number x y -> is_nan x = false -> (x <=? y) = true.
Proof.
  intros [<- | [Hx Hy]] Hn.
  - apply is_nan_SF in Hn. rewrite FloatAxioms.leb_spec. unfold SFleb.
    rewrite SFcompare_refl_Eq; [reflexivity | exact Hn].
  - destruct Hx as [-> | ->], Hy as [-> | ->]; reflexivity.
Qed.

Lemma same_number_sym x y : same_number x y -> same_number y x.
Proof. intros [-> | [Hx Hy]]; [now left | right; auto]. Qed.

Lemma same_number_trans x y z :
  same_number x y -> same_number y z -> same_number x z.
Proof.
  intros [-> | [Hx Hy]] [<- | [Hy' Hz]]; unfold same_number; auto.
Qed.

Lemma same_number_not_nan x y :
  same_number x y -> is_nan x = false -> is_nan y = false.
Proof.
  intros [<- | [_ [-> | ->]]]; auto.
Qed.

(** Two Numbers neither of which is below the other are the same. *)
Lemma not_ltb_same x y :
  is_nan x = false -> is_nan y = false ->
  (x <? y) = false -> (y <? x) = false -> same_number x y.
Proof.
  intros Hx Hy H1 H2. apply leb_not_ltb; [|exact H1].
  apply is_nan_SF in Hx, Hy.
  rewrite FloatAxioms.ltb_spec in *. rewrite FloatAxioms.leb_spec.
  unfold SFltb, SFleb in *.
  rewrite (SFcompare_antisym (Prim2SF x) (Prim2SF y)) in H2.
  destruct (SFcompare_Some _ _ Hx Hy) as [c Hc]. rewrite Hc in *.
  now destruct c.
Qed.

Lemma ltb_leb_trans x y z :
  (x <? y) = true -> (y <=? z) = true -> (x <? z) = true.
Proof.
  rewrite !FloatAxioms.ltb_spec, FloatAxioms.leb_spec. unfold SFltb, SFleb.
  destruct (SFcompare (Prim2SF x) (Prim2SF y)) as [[]|] eqn:E1;
    try discriminate.
  destruct (SFcompare (Prim2SF y) (Prim2SF z)) as [[]|] eqn:E2;
    try discriminate;
    intros _ _; rewrite (SFcompare_trans _ _ _ _ _ E1 E2); congruence.
Qed.

Lemma leb_trans x y z :
  (x <=? y) = true -> (y <=? z) = true -> (x <=? z) = true.
Proof.
  rewrite !FloatAxioms.leb_spec. unfold SFleb.
  destruct (SFcompare (Prim2SF x) (Prim2SF y)) as [[]|] eqn:E1;
    try discriminate;
  destruct (SFcompare (Prim2SF y) (Prim2SF z)) as [[]|] eqn:E2;
    try discriminate;
    intros _ _; rewrite (SFcompare_trans _ _ _ _ _ E1 E2); congruence.
Qed.

(** ** [Math.max] and [Math.min] *)

Lemma Math_max_spec x y :
  is_nan x = false -> is_nan y = false ->
  (Math_max x y = x \/ Math_max x y = y)
  /\ (x <=? Math_max x y) = true /\ (y <=? Math_max x y) = true.
Proof.
  intros Hx Hy. unfold Math_max. rewrite Hx, Hy. cbn [orb].
  pose proof (same_number_leb x x (or_introl eq_refl) Hx) as Hxx.
  pose proof (same_number_leb y y (or_introl eq_refl) Hy) as Hyy.
  destruct (x <? y) eqn:E1; [auto using ltb_leb|].
  destruct (y <? x) eqn:E2; [auto using ltb_leb|].
  pose proof (not_ltb_same x y Hx Hy E1 E2) as Hs.
  pose proof (same_number_leb _ _ Hs Hx).
  pose proof (same_number_leb _ _ (same_number_sym _ _ Hs) Hy).
  destruct (is_negative_zero x); auto.
Qed.

Lemma Math_min_spec x y :
  is_nan x = false -> is_nan y = false ->
  (Math_min x y = x \/ Math_min x y = y)
  /\ (Math_min x y <=? x) = true /\ (Math_min x y <=? y) = true.
Proof.
  intros Hx Hy. unfold Math_min. rewrite Hx, Hy. cbn [orb].
  pose proof (same_number_leb x x (or_introl eq_refl) Hx) as Hxx.
  pose proof (same_number_leb y y (or_introl eq_refl) Hy) as Hyy.
  destruct (x <? y) eqn:E1; [auto using ltb_leb|].
  destruct (y <? x) eqn:E2; [auto using ltb_leb|].
  pose proof (not_ltb_same x y Hx Hy E1 E2) as Hs.
  pose proof (same_number_leb _ _ Hs Hx).
  pose proof (same_number_leb _ _ (same_number_sym _ _ Hs) Hy).
  destruct (is_negative_zero x); auto.
Qed.

Lemma Math_max_not_nan x y :
  is_nan x = false -> is_nan y = false -> is_nan (Math_max x y) = false.
Proof.
  intros Hx Hy. destruct (Math_max_spec x y Hx Hy) as ([-> | ->] & _); auto.
Qed.

Lemma Math_min_not_nan x y :
  is_nan x = false -> is_nan y = false -> is_nan (Math_min x y) = false.
Proof.
  intros Hx Hy. destruct (Math_min_spec x y Hx Hy) as ([-> | ->] & _); auto.
Qed.

(** Between ordered bounds: [Math.max(lo, Math.min(hi, v))] and
    [Math.min(Math.max(v, lo), hi)] lie within them. *)
Lemma max_min_range lo hi v :
  (lo <=? hi) = true -> is_nan v = false ->
  let r := Math_max lo (Math_min hi v) in
  (lo <=? r) = true /\ (r <=? hi) = true.
Proof.
  intros Hb Hv. destruct (leb_not_nan _ _ Hb) as [Hlo Hhi].
  pose proof (Math_min_not_nan hi v Hhi Hv) as Hn.
  destruct (Math_min_spec hi v Hhi Hv) as (_ & H1 & _).
  destruct (Math_max_spec lo _ Hlo Hn) as ([E | E] & H2 & _).
  - cbv zeta. rewrite E. split; [|exact Hb].
    apply same_number_leb; [now left | exact Hlo].
  - cbv zeta. split; [exact H2|]. rewrite E. exact H1.
Qed.

Lemma clamp_range v lo hi :
  (lo <=? hi) = true -> is_nan v = false ->
  (lo <=? clamp v lo hi) = true /\ (clamp v lo hi <=? hi) = true.
Proof.
  intros Hb Hv. destruct (leb_not_nan _ _ Hb) as [Hlo Hhi]. unfold clamp.
  pose proof (Math_max_not_nan v lo Hv Hlo) as Hn.
  destruct (Math_max_spec v lo Hv Hlo) as (_ & _ & H1).
  destruct (Math_min_spec _ hi Hn Hhi) as ([E | E] & _ & H2).
  - split; [|exact H2]. rewrite E. exact H1.
  - rewrite E. split; [exact Hb|].
    apply same_number_leb; [now left | exact Hhi].
Qed.

End NumberOrder.

(** * Clamping and input sanitising *)
Section Clamping.

Lemma leb_same_number_r x y y' :
  same_number y y' -> (x <=? y) = true -> (x <=? y') = true.
Proof.
  intros [<- | [Hy Hy']]; [easy|].
  rewrite !FloatAxioms.leb_spec.
  apply signed_zero_SF in Hy as [s ->]. apply signed_zero_SF in Hy' as [t ->].
  now destruct (Prim2SF x).
Qed.

Lemma clamp_unchanged v lo hi :
  (lo <=? v) = true -> (v <=? hi) = true -> same_number (clamp v lo hi) v.
Proof.
  intros H1 H2. destruct (leb_not_nan _ _ H1) as [Hlo Hv].
  destruct (leb_not_nan _ _ H2) as [_ Hhi].
  assert (Hmax : same_number (Math_max v lo) v).
  { unfold Math_max. rewrite Hv, Hlo, (leb_ltb_false _ _ H1). cbn [orb].
    destruct (lo <? v) eqn:E; [now left|].
    pose proof (not_ltb_same v lo Hv Hlo (leb_ltb_false _ _ H1) E) as Hs.
    destruct (is_negative_zero v); [now apply same_number_sym | now left]. }
  pose proof (leb_same_number _ _ _ Hmax H2) as H3.
  pose proof (same_number_not_nan _ _ (same_number_sym _ _ Hmax) Hv) as Hn.
  apply same_number_trans with (Math_max v lo); [|exact Hmax].
  unfold clamp, Math_min. rewrite Hn, Hhi, (leb_ltb_false _ _ H3). cbn [orb].
  destruct (Math_max v lo <? hi) eqn:E; [now left|].
  pose proof (not_ltb_same _ _ Hn Hhi E (leb_ltb_false _ _ H3)) as Hs.
  destruct (is_negative_zero _); [now left | now apply same_number_sym].
Qed.

Lemma clamp_inverted v lo hi :
  (hi <? lo) = true -> is_nan v = false -> clamp v lo hi = hi.
Proof.
  intros Hb Hv. destruct (leb_not_nan _ _ (ltb_leb _ _ Hb)) as [Hhi Hlo].
  destruct (Math_max_spec v lo Hv Hlo) as (_ & _ & H1).
  pose proof (Math_max_not_nan v lo Hv Hlo) as Hn.
  pose proof (ltb_leb_trans _ _ _ Hb H1) as H2.
  unfold clamp, Math_min.
  rewrite Hn, Hhi, H2, (leb_ltb_false _ _ (ltb_leb _ _ H2)). reflexivity.
Qed.

Lemma clamp_nan v lo hi :
  is_nan v = true \/ is_nan lo = true \/ is_nan hi = true ->
  clamp v lo hi = nan.
Proof.
  unfold clamp, Math_min, Math_max.
  intros [H | [H | H]]; rewrite H, ?orb_true_r; reflexivity.
Qed.

Lemma ltb_infinity_l x : (infinity <? x) = false.
Proof.
  rewrite FloatAxioms.ltb_spec. unfold SFltb.
  change (Prim2SF infinity) with (S754_infinity false).
  now destruct (Prim2SF x) as [ |[]| | ].
Qed.

Lemma ltb_neg_infinity_r x : (x <? neg_infinity) = false.
Proof.
  rewrite FloatAxioms.ltb_spec. unfold SFltb.
  change (Prim2SF neg_infinity) with (S754_infinity true).
  now destruct (Prim2SF x) as [ |[]| |[] ? ?].
Qed.

Lemma Math_min_infinity x : is_nan x = false -> Math_min infinity x = x.
Proof.
  intros Hx. unfold Math_min. rewrite Hx, ltb_infinity_l.
  change (is_nan infinity) with false. cbn [orb].
  change (is_negative_zero infinity) with false. cbv iota.
  now destruct (x <? infinity).
Qed.

Lemma Math_max_neg_infinity x :
  is_nan x = false -> Math_max neg_infinity x = x.
Proof.
  intros Hx. unfold Math_max. rewrite Hx, ltb_neg_infinity_r.
  change (is_nan neg_infinity) with false. cbn [orb].
  change (is_negative_zero neg_infinity) with false. cbv iota.
  destruct (neg_infinity <? x) eqn:E; [reflexivity|].
  destruct (not_ltb_same neg_infinity x eq_refl Hx E (ltb_neg_infinity_r x))
    as [H | [[H | H] _]]; [exact H | discriminate H | discriminate H].
Qed.

Context (parseFloat : string -> float).

Lemma sanitizeInput_default text :
  sanitizeInput parseFloat text neg_infinity infinity
  = if is_nan (parseFloat text) then 0 else parseFloat text.
Proof.
  unfold sanitizeInput. destruct (is_nan (parseFloat text)) eqn:E;
    [reflexivity|].
  now rewrite Math_min_infinity, Math_max_neg_infinity.
Qed.

Lemma sanitizeInput_default_not_nan text :
  is_nan (sanitizeInput parseFloat text neg_infinity infinity) = false.
Proof.
  rewrite sanitizeInput_default.
  now destruct (is_nan (parseFloat text)) eqn:E.
Qed.

End Clamping.

(** * Input events *)
Section InputEvents.

Context (parseFloat : string -> float).

Lemma is_negative_zero_eq x : is_negative_zero x = true -> x = -0.
Proof.
  unfold is_negative_zero. intros H.
  destruct (Prim2SF x) as [[]| | |] eqn:E; try discriminate.
  now apply SF_eq in E.
Qed.

Lemma parseFloat_Number_same x : same_number (parseFloat_Number x) x.
Proof.
  unfold parseFloat_Number. destruct (is_negative_zero x) eqn:E; [|now left].
  apply is_negative_zero_eq in E. subst x. right. split; [now left | now right].
Qed.

(** [validatePortfolioSize] accepts the Numbers within the limits. *)
Lemma validatePortfolioSize_true value pc :
  fst (validatePortfolioSize value pc) = true ->
  (minPortfolioSize pc <=? value) = true
  /\ (value <=? maxPortfolioSize pc) = true.
Proof.
  unfold validatePortfolioSize.
  destruct (is_nan (parseFloat_Number value)); [discriminate|].
  cbn. intros H. apply andb_prop in H as [H1 H2].
  pose proof (parseFloat_Number_same value) as Hs. split.
  - now apply leb_same_number_r with (parseFloat_Number value).
  - now apply leb_same_number with (parseFloat_Number value);
      [apply same_number_sym|].
Qed.

Lemma validatePortfolioSize_state value pc :
  snd (validatePortfolioSize value pc) = pc.
Proof.
  unfold validatePortfolioSize.
  now destruct (is_nan (parseFloat_Number value)).
Qed.

Lemma handle_portfolioSize text pc :
  let value := sanitizeInput parseFloat text neg_infinity infinity in
  snd (handleInputChange parseFloat id_portfolioSize text pc)
  = set_portfolioSize
      (if fst (validatePortfolioSize value pc) then value
       else Math_max (minPortfolioSize pc)
              (Math_min (maxPortfolioSize pc) value)) pc.
Proof.
  cbv zeta. unfold handleInputChange, bind.
  pose proof (validatePortfolioSize_state
    (sanitizeInput parseFloat text neg_infinity infinity) pc) as Hs.
  destruct (validatePortfolioSize _ pc) as [valid pc']. cbn in Hs. subst pc'.
  reflexivity.
Qed.

Lemma handle_btcAllocation text pc :
  btcAllocation (snd (handleInputChange parseFloat id_btcAllocation text pc))
  = clamp (sanitizeInput parseFloat text neg_infinity infinity) 0 50.
Proof. reflexivity. Qed.

Lemma handle_stockAllocation text pc :
  stockAllocation
    (snd (handleInputChange parseFloat id_stockAllocation text pc))
  = clamp (sanitizeInput parseFloat text neg_infinity infinity) 0 100.
Proof.
  unfold handleInputChange, bind, gets, modify. cbn.
  now destruct (100 <? _).
Qed.

Lemma handle_bondAllocation text pc :
  bondAllocation
    (snd (handleInputChange parseFloat id_bondAllocation text pc))
  = clamp (sanitizeInput parseFloat text neg_infinity infinity) 0 100.
Proof.
  unfold handleInputChange, bind, gets, modify. cbn.
  now destruct (100 <? _).
Qed.

(** No event touches the tables or the limits. *)
Lemma handleInputChange_frame id text pc :
  let pc' := snd (handleInputChange parseFloat id text pc) in
  historicalReturns pc' = historicalReturns pc
  /\ minPortfolioSize pc' = minPortfolioSize pc
  /\ maxPortfolioSize pc' = maxPortfolioSize pc
  /\ minAllocation pc' = minAllocation pc
  /\ maxAllocation pc' = maxAllocation pc.
Proof.
  destruct id; try (cbv zeta; rewrite handle_portfolioSize); cbn;
    try (destruct (100 <? _)); auto.
Qed.

Lemma handle_events_cons id text events pc :
  handle_events parseFloat ((id, text) :: events) pc
  = handle_events parseFloat events
      (snd (handleInputChange parseFloat id text pc)).
Proof. reflexivity. Qed.

Lemma handle_events_frame events pc :
  let pc' := handle_events parseFloat events pc in
  historicalReturns pc' = historicalReturns pc
  /\ minPortfolioSize pc' = minPortfolioSize pc
  /\ maxPortfolioSize pc' = maxPortfolioSize pc
  /\ minAllocation pc' = minAllocation pc
  /\ maxAllocation pc' = maxAllocation pc.
Proof.
  revert pc. induction events as [|[id text] events IH]; intros pc; [now cbn|].
  rewrite handle_events_cons. cbv zeta.
  destruct (IH (snd (handleInputChange parseFloat id text pc)))
    as (-> & -> & -> & -> & ->).
  apply handleInputChange_frame.
Qed.

End InputEvents.

(** * The Sharpe ratio *)
Section Sharpe.

Context (impl : float -> float -> float).

Lemma fold_left_sum_map {A} (f : A -> float) l a :
  fold_left (fun sum r => sum + f r) l a
  = fold_left (fun a b => a + b) (map f l) a.
Proof.
  revert a. induction l as [|x l IH]; intros a; [reflexivity | apply IH].
Qed.

Lemma calculateSharpeRatio_volatility returns riskFreeRate :
  calculateSharpeRatio impl returns riskFreeRate
  = if calculateVolatility impl returns =? 0 then 0
    else (population_mean returns - riskFreeRate)
         / calculateVolatility impl returns.
Proof.
  unfold calculateSharpeRatio, calculateVolatility, population_mean, reduce_sum.
  rewrite fold_left_sum_map. reflexivity.
Qed.

Lemma div_nan_r x : x / nan = nan.
Proof.
  apply Prim2SF_inj. rewrite FloatAxioms.div_spec.
  change (Prim2SF nan) with S754_nan. now destruct (Prim2SF x).
Qed.

End Sharpe.

(** * Local storage and reading progress *)
Section StorageFacts.

Context {Value : Type}.
Context (JSON_stringify : Value -> option string).
Context (JSON_parse : string -> option Value).
Context (accepts : gmap string string -> bool).

Lemma storage_key_inj key key' :
  STORAGE_PREFIX +:+ key = STORAGE_PREFIX +:+ key' -> key = key'.
Proof. intros H. now simplify_eq/=. Qed.

Lemma saveToStorage_true key value st st' :
  saveToStorage Value JSON_stringify accepts key value st = (true, st') ->
  exists text,
    JSON_stringify value = Some text
    /\ st' = <[STORAGE_PREFIX +:+ key := text]> st.
Proof.
  unfold saveToStorage. destruct (JSON_stringify value) as [text|];
    [|discriminate].
  destruct (accepts _); [|discriminate].
  intros [= <-]. eauto.
Qed.

Lemma saveToStorage_false key value st st' :
  saveToStorage Value JSON_stringify accepts key value st = (false, st') ->
  st' = st.
Proof.
  unfold saveToStorage. destruct (JSON_stringify value) as [text|];
    [|now intros [= <-]].
  destruct (accepts _); [discriminate | now intros [= <-]].
Qed.

Lemma saveToStorage_other key key' value st :
  key <> key' ->
  (saveToStorage Value JSON_stringify accepts key value st).2
    !! (STORAGE_PREFIX +:+ key')
  = st !! (STORAGE_PREFIX +:+ key').
Proof.
  intros Hk. unfold saveToStorage.
  destruct (JSON_stringify value) as [text|]; [|reflexivity].
  destruct (accepts _); [|reflexivity].
  cbn [snd]. apply lookup_insert_ne. intros H. now apply storage_key_inj in H.
Qed.

Lemma save_load_round_trip key value d st st' :
  saveToStorage Value JSON_stringify accepts key value st = (true, st') ->
  (forall text, JSON_stringify value = Some text ->
     text <> "" /\ JSON_parse text = Some value) ->
  loadFromStorage Value JSON_parse key d st' = value.
Proof.
  intros Hsave Hjson.
  apply saveToStorage_true in Hsave as (text & Htext & ->).
  destruct (Hjson text Htext) as [Hne Hparse].
  unfold loadFromStorage. rewrite lookup_insert_eq.
  destruct (decide (text = "")); [contradiction|]. now rewrite Hparse.
Qed.

Lemma loadFromStorage_lookup key d st st' :
  st !! (STORAGE_PREFIX +:+ key) = st' !! (STORAGE_PREFIX +:+ key) ->
  loadFromStorage Value JSON_parse key d st
  = loadFromStorage Value JSON_parse key d st'.
Proof. unfold loadFromStorage. now intros ->. Qed.

End StorageFacts.

(** * More on the simulator *)
Section SimulatorShape.

Context (impl : float -> float -> float).


Lemma loop_body_values s b c sy i v pc :
  results_values (fst (loop_body s b c sy i v pc))
  = results_values v ++ [value (fst (loop_body s b c sy i v pc))].
Proof. reflexivity. Qed.

Lemma seqZ_step m n : seqZ m (Z.of_nat (S n)) = m :: seqZ (m + 1) (Z.of_nat n).
Proof.
  rewrite seqZ_cons by lia. f_equal. f_equal; lia.
Qed.


Lemma for_loop_returns s b c sy n i v pc :
  results_returns (fst (for_loop s b c sy n i v pc))
  = results_returns v
    ++ map (yearReturn (historicalReturns pc) s b c)
         (seqZ (sy + i) (Z.of_nat n)).
Proof.
  revert i v. induction n as [|n IH]; intros i v.
  - cbn. now rewrite app_nil_r.
  - rewrite for_loop_S, IH, loop_body_returns, seqZ_step, <- app_assoc.
    cbn [app map]. do 4 f_equal. lia.
Qed.



(** The running maximum and the peak are those of [calculateMaxDrawdown]'s
    loop over the values pushed so far. *)
Lemma loop_body_drawdown_step s b c sy i v pc :
  let v' := fst (loop_body s b c sy i v pc) in
  (results_maxDrawdown v', peak v')
  = drawdown_step (results_maxDrawdown v, peak v) (value v').
Proof. reflexivity. Qed.

Lemma for_loop_drawdown s b c sy n i v pc acc :
  (results_maxDrawdown v, peak v)
  = fold_left drawdown_step (results_values v) acc ->
  let v' := fst (for_loop s b c sy n i v pc) in
  (results_maxDrawdown v', peak v')
  = fold_left drawdown_step (results_values v') acc.
Proof.
  revert i v. induction n as [|n IH]; intros i v H; [exact H|].
  cbv zeta. rewrite for_loop_S. apply IH.
  rewrite loop_body_drawdown_step, loop_body_values, fold_left_app, <- H.
  reflexivity.
Qed.

Lemma drawdown_step_first x : drawdown_step (0, x) x = (0, x).
Proof.
  unfold drawdown_step. rewrite ltb_irrefl.
  now rewrite drawdown_quiet by apply sub_diag_zero_or_nan.
Qed.

(** The running maximum is never below zero, hence never NaN. *)
Lemma drawdown_step_nonneg md p x :
  (0 <=? md) = true -> (0 <=? fst (drawdown_step (md, p) x)) = true.
Proof.
  intros H. unfold drawdown_step. cbn [fst].
  destruct (md <? _) eqn:E; [|exact H].
  eapply leb_trans; [exact H | now apply ltb_leb].
Qed.

Lemma fold_drawdown_nonneg l acc :
  (0 <=? fst acc) = true ->
  (0 <=? fst (fold_left drawdown_step l acc)) = true.
Proof.
  revert acc. induction l as [|x l IH]; intros [md p] H; [exact H|].
  cbn [fold_left]. apply IH.
  destruct (drawdown_step (md, p) x) as [md' p'] eqn:E.
  change md' with (fst (md', p')). rewrite <- E.
  now apply drawdown_step_nonneg.
Qed.

(** All in one asset, a year returns the entry of that asset. *)
Lemma yearReturn_all_in year :
  yearReturn shipped 100 0 0 year
  = ToNumber (nullish (stocks shipped !! year) (stocks shipped !! 2024%Z))
  /\ yearReturn shipped 0 100 0 year
     = ToNumber (nullish (bonds shipped !! year) (bonds shipped !! 2024%Z))
  /\ yearReturn shipped 0 0 100 year
     = ToNumber (nullish (bitcoin shipped !! year)
                   (bitcoin shipped !! 2024%Z)).
Proof.
  destruct (decide (2014 <= year <= 2024)%Z) as [H | H].
  - apply tabulated_year in H. cbn [In] in H.
    repeat (destruct H as [<- | H];
            [repeat split; vm_compute; reflexivity|]).
    destruct H.
  - rewrite !(yearReturn_outside _ _ _ _ H).
    destruct (shipped_outside year H) as (-> & -> & ->).
    repeat split; vm_compute; reflexivity.
Qed.

End SimulatorShape.

(** * Further properties of the scripts *)

(** X1: between ordered bounds, [clamp] of any Number that is not NaN lies
    within the bounds. *)
Theorem clamp_within_bounds v lo hi :
  (lo <=? hi) = true -> is_nan v = false ->
  (lo <=? clamp v lo hi) = true /\ (clamp v lo hi <=? hi) = true.
Proof. apply clamp_range. Qed.

Lemma clamp_within_bounds_witness :
  (0 <=? clamp 70 0 50) = true /\ (clamp 70 0 50 <=? 50) = true.
Proof. apply (clamp_within_bounds 70 0 50); reflexivity. Defined.

(** X2: [clamp] returns a value that is within the bounds as it is, up to the
    sign of a zero. *)
Theorem clamp_keeps_value_in_range v lo hi :
  (lo <=? v) = true -> (v <=? hi) = true -> same_number (clamp v lo hi) v.
Proof. apply clamp_unchanged. Qed.

Lemma clamp_keeps_value_in_range_witness : same_number (clamp 12.5 0 50) 12.5.
Proof. apply (clamp_keeps_value_in_range 12.5 0 50); reflexivity. Defined.

(** X3: with the bounds the wrong way round, [max] below [min], [clamp]
    returns [max] for every value that is not NaN. *)
Theorem clamp_inverted_bounds v lo hi :
  (hi <? lo) = true -> is_nan v = false -> clamp v lo hi = hi.
Proof. apply clamp_inverted. Qed.

Lemma clamp_inverted_bounds_witness : clamp 7 10 5 = 5.
Proof. apply (clamp_inverted_bounds 7 10 5); reflexivity. Defined.

(** X4: [clamp] is NaN as soon as the value or one of the bounds is. *)
Theorem clamp_propagates_nan v lo hi :
  clamp nan lo hi = nan /\ clamp v nan hi = nan /\ clamp v lo nan = nan.
Proof.
  repeat split; apply clamp_nan; auto.
Qed.

Section InputProperties.

Context (parseFloat : string -> float).

(** X5: [sanitizeInput] returns 0 for a text that does not parse, whatever
    the bounds, and for a text that parses a Number within the bounds, when
    these are ordered. *)
Theorem sanitizeInput_within_bounds text lo hi :
  (is_nan (parseFloat text) = true -> sanitizeInput parseFloat text lo hi = 0)
  /\ (is_nan (parseFloat text) = false -> (lo <=? hi) = true ->
      (lo <=? sanitizeInput parseFloat text lo hi) = true
      /\ (sanitizeInput parseFloat text lo hi <=? hi) = true).
Proof.
  unfold sanitizeInput. split; intros H.
  - now rewrite H.
  - intros Hb. rewrite H. now apply max_min_range.
Qed.

(** X6: with the default bounds [sanitizeInput] returns the parsed Number,
    and 0 when there is none: it never returns NaN. *)
Theorem sanitizeInput_default_bounds text :
  sanitizeInput parseFloat text neg_infinity infinity
  = (if is_nan (parseFloat text) then 0 else parseFloat text)
  /\ is_nan (sanitizeInput parseFloat text neg_infinity infinity) = false.
Proof.
  split; [apply sanitizeInput_default | apply sanitizeInput_default_not_nan].
Qed.

(** X7: after an event on the portfolio size the size in the state lies
    within the limits of the state, whatever the text of the input, when the
    limits are ordered. *)
Theorem handleInputChange_portfolioSize text pc :
  (minPortfolioSize pc <=? maxPortfolioSize pc) = true ->
  let pc' := snd (handleInputChange parseFloat id_portfolioSize text pc) in
  (minPortfolioSize pc' <=? portfolioSize pc') = true
  /\ (portfolioSize pc' <=? maxPortfolioSize pc') = true.
Proof.
  intros Hb. cbv zeta. rewrite handle_portfolioSize.
  cbn [minPortfolioSize maxPortfolioSize portfolioSize set_portfolioSize].
  destruct (fst (validatePortfolioSize _ pc)) eqn:E.
  - now apply validatePortfolioSize_true.
  - apply max_min_range; [exact Hb | apply sanitizeInput_default_not_nan].
Qed.

(** X8: after an event on an allocation slider the allocation it names lies
    within 0 and 100, and within 0 and 50 for bitcoin, whatever the text of
    the input and the state before. *)
Theorem handleInputChange_allocation text pc :
  (let pc' := snd (handleInputChange parseFloat id_btcAllocation text pc) in
   (0 <=? btcAllocation pc') = true /\ (btcAllocation pc' <=? 50) = true)
  /\ (let pc' :=
        snd (handleInputChange parseFloat id_stockAllocation text pc) in
      (0 <=? stockAllocation pc') = true
      /\ (stockAllocation pc' <=? 100) = true)
  /\ (let pc' := snd (handleInputChange parseFloat id_bondAllocation text pc) in
      (0 <=? bondAllocation pc') = true
      /\ (bondAllocation pc' <=? 100) = true).
Proof.
  cbv zeta.
  rewrite handle_btcAllocation, handle_stockAllocation, handle_bondAllocation.
  repeat split; apply clamp_range;
    (reflexivity || apply sanitizeInput_default_not_nan).
Qed.

(** X9: no sequence of input events changes the return tables or the
    validation limits, so a simulation with the same arguments returns the
    same result after the events as before. *)
Theorem events_keep_tables events pc :
  let pc' := handle_events parseFloat events pc in
  historicalReturns pc' = historicalReturns pc
  /\ minPortfolioSize pc' = minPortfolioSize pc
  /\ maxPortfolioSize pc' = maxPortfolioSize pc
  /\ minAllocation pc' = minAllocation pc
  /\ maxAllocation pc' = maxAllocation pc
  /\ forall impl iv s b c ys sy,
       simulate impl pc' iv s b c ys sy = simulate impl pc iv s b c ys sy.
Proof.
  cbv zeta.
  destruct (handle_events_frame parseFloat events pc)
    as (H1 & H2 & H3 & H4 & H5).
  repeat split; auto.
  intros. now apply simulate_table.
Qed.

(** X10: the handler does not keep the allocations within 0 and 100.  From
    the initial state, bitcoin set to 50 and bonds to 90 leave the stock
    allocation at -40; bonds then set to 40 and bitcoin to 10 leave stocks at
    minus infinity and bonds at infinity, a state [validateAllocation]
    rejects. *)
Theorem allocations_leave_range :
  parseFloat "50" = 50 -> parseFloat "90" = 90 ->
  parseFloat "40" = 40 -> parseFloat "10" = 10 ->
  let pc2 := handle_events parseFloat
    [(id_btcAllocation, "50"); (id_bondAllocation, "90")] portfolioCalc in
  let pc4 := handle_events parseFloat
    [(id_bondAllocation, "40"); (id_btcAllocation, "10")] pc2 in
  (stockAllocation pc2 = -40 /\ bondAllocation pc2 = 90
   /\ btcAllocation pc2 = 50)
  /\ (stockAllocation pc4 = neg_infinity /\ bondAllocation pc4 = infinity
      /\ btcAllocation pc4 = 10)
  /\ fst (validateAllocation (stockAllocation pc2) (bondAllocation pc2)
            (btcAllocation pc2) pc2) = false
  /\ fst (validateAllocation (stockAllocation pc4) (bondAllocation pc4)
            (btcAllocation pc4) pc4) = false.
Proof.
  intros H50 H90 H40 H10. cbv zeta.
  unfold handle_events. cbn [fold_left fst snd].
  unfold handleInputChange, sanitizeInput. rewrite H50, H90, H40, H10.
  vm_compute. repeat split; reflexivity.
Qed.

End InputProperties.

Lemma sanitizeInput_within_bounds_witness :
  (1 <=? sanitizeInput (fun _ => 250) "250" 1 100) = true
  /\ (sanitizeInput (fun _ => 250) "250" 1 100 <=? 100) = true.
Proof.
  apply (proj2 (sanitizeInput_within_bounds (fun _ => 250) "250" 1 100));
    reflexivity.
Defined.

Lemma handleInputChange_portfolioSize_witness :
  let pc' := snd (handleInputChange (fun _ => nan) id_portfolioSize "abc"
                    portfolioCalc) in
  (minPortfolioSize pc' <=? portfolioSize pc') = true
  /\ (portfolioSize pc' <=? maxPortfolioSize pc') = true.
Proof.
  apply (handleInputChange_portfolioSize (fun _ => nan) "abc" portfolioCalc).
  reflexivity.
Defined.

Lemma allocations_leave_range_witness :
  let parseFloat := fun text : string =>
    if String.eqb text "50" then 50
    else if String.eqb text "90" then 90
    else if String.eqb text "40" then 40
    else if String.eqb text "10" then 10 else nan in
  let pc2 := handle_events parseFloat
    [(id_btcAllocation, "50"); (id_bondAllocation, "90")] portfolioCalc in
  let pc4 := handle_events parseFloat
    [(id_bondAllocation, "40"); (id_btcAllocation, "10")] pc2 in
  (stockAllocation pc2 = -40 /\ bondAllocation pc2 = 90
   /\ btcAllocation pc2 = 50)
  /\ (stockAllocation pc4 = neg_infinity /\ bondAllocation pc4 = infinity
      /\ btcAllocation pc4 = 10)
  /\ fst (validateAllocation (stockAllocation pc2) (bondAllocation pc2)
            (btcAllocation pc2) pc2) = false
  /\ fst (validateAllocation (stockAllocation pc4) (bondAllocation pc4)
            (btcAllocation pc4) pc4) = false.
Proof.
  intros parseFloat.
  apply (allocations_leave_range parseFloat); reflexivity.
Defined.

(** X11: [calculateSharpeRatio] is zero when the deviation of the returns,
    which is the one [calculateVolatility] computes, compares equal to zero,
    and the excess of the mean over the risk-free rate divided by that
    deviation otherwise; so it is 0 for a constant sequence whose mean is
    computed exactly, and NaN for the empty sequence. *)
Theorem calculateSharpeRatio_spec impl :
  (forall returns riskFreeRate,
     calculateSharpeRatio impl returns riskFreeRate
     = if calculateVolatility impl returns =? 0 then 0
       else (population_mean returns - riskFreeRate)
            / calculateVolatility impl returns)
  /\ (forall c n riskFreeRate,
        finite_number c = true -> population_mean (replicate n c) = c ->
        calculateSharpeRatio impl (replicate n c) riskFreeRate = 0)
  /\ (forall riskFreeRate, calculateSharpeRatio impl [] riskFreeRate = nan).
Proof.
  split; [|split].
  - apply calculateSharpeRatio_volatility.
  - intros c n rf Hc Hmean. rewrite calculateSharpeRatio_volatility.
    rewrite calculateVolatility_population.
    now rewrite population_std_dev_constant.
  - intros rf. rewrite calculateSharpeRatio_volatility.
    change (calculateVolatility impl []) with nan.
    change (nan =? 0) with false. apply div_nan_r.
Qed.

Lemma calculateSharpeRatio_spec_witness :
  calculateSharpeRatio unspecified_pow (replicate 3 5) 2 = 0.
Proof.
  apply (proj1 (proj2 (calculateSharpeRatio_spec unspecified_pow)));
    reflexivity.
Defined.

Section StorageProperties.

Context {Value : Type}.
Context (JSON_stringify : Value -> option string).
Context (JSON_parse : string -> option Value).
Context (accepts : gmap string string -> bool).

(** X12: a value saved under a key is the value loaded from that key, when
    the save succeeded and the text the value is saved as is not empty and
    parses back to the value. *)
Theorem save_then_load key value defaultValue st st' :
  saveToStorage Value JSON_stringify accepts key value st = (true, st') ->
  (forall text, JSON_stringify value = Some text ->
     text <> "" /\ JSON_parse text = Some value) ->
  loadFromStorage Value JSON_parse key defaultValue st' = value.
Proof. apply save_load_round_trip. Qed.

(** X13: saving or removing under one key leaves what is loaded from every
    other key as it was. *)
Theorem storage_keys_independent key key' value defaultValue st :
  key <> key' ->
  loadFromStorage Value JSON_parse key' defaultValue
    (snd (saveToStorage Value JSON_stringify accepts key value st))
  = loadFromStorage Value JSON_parse key' defaultValue st
  /\ loadFromStorage Value JSON_parse key' defaultValue
       (snd (removeFromStorage key st))
     = loadFromStorage Value JSON_parse key' defaultValue st.
Proof.
  intros Hk. split; apply loadFromStorage_lookup.
  - now apply saveToStorage_other.
  - cbn [removeFromStorage snd]. apply lookup_delete_ne.
    intros H. now apply storage_key_inj in H.
Qed.

(** X14: loading never fails: it returns the default when the key is
    missing, when the stored text is empty and when it does not parse, and so
    after the key was removed; a save that fails leaves the storage as it
    was. *)
Theorem storage_fails_soft key value defaultValue st :
  (st !! (STORAGE_PREFIX +:+ key) = None ->
   loadFromStorage Value JSON_parse key defaultValue st = defaultValue)
  /\ (st !! (STORAGE_PREFIX +:+ key) = Some "" ->
      loadFromStorage Value JSON_parse key defaultValue st = defaultValue)
  /\ (forall item,
        st !! (STORAGE_PREFIX +:+ key) = Some item ->
        JSON_parse item = None ->
        loadFromStorage Value JSON_parse key defaultValue st = defaultValue)
  /\ loadFromStorage Value JSON_parse key defaultValue
       (snd (removeFromStorage key st)) = defaultValue
  /\ (fst (saveToStorage Value JSON_stringify accepts key value st) = false ->
      snd (saveToStorage Value JSON_stringify accepts key value st) = st).
Proof.
  unfold loadFromStorage. repeat split.
  - now intros ->.
  - now intros ->.
  - intros item -> ->. now destruct (decide (item = "")).
  - cbn [removeFromStorage snd]. now rewrite lookup_delete_eq.
  - intros H.
    destruct (saveToStorage _ _ _ _ _ _) as [ok st'] eqn:E. cbn in *. subst ok.
    now apply saveToStorage_false in E.
Qed.

End StorageProperties.

Lemma save_then_load_witness :
  loadFromStorage bool (fun text => if decide (text = "true") then Some true
                                    else None)
    "content_view" false
    (<["bfi_content_view" := "true"]> ∅)
  = true.
Proof.
  apply (save_then_load (fun b : bool => Some (if b then "true" else "false"))
           _ (fun _ => true) "content_view" true false ∅).
  - reflexivity.
  - intros text [= <-]. split; [discriminate | reflexivity].
Defined.

Lemma storage_keys_independent_witness :
  loadFromStorage bool (fun _ => Some true) "reading_progress" false
    (snd (saveToStorage bool (fun _ => Some "true") (fun _ => true)
            "content_view" true ∅))
  = loadFromStorage bool (fun _ => Some true) "reading_progress" false ∅.
Proof.
  apply (proj1 (storage_keys_independent (fun _ => Some "true")
                  (fun _ => Some true) (fun _ => true)
                  "content_view" "reading_progress" true false ∅
                  ltac:(discriminate))).
Defined.

Lemma storage_fails_soft_witness :
  loadFromStorage bool (fun _ => None) "content_view" false
    (<["bfi_content_view" := "{"]> ∅)
  = false.
Proof.
  apply (proj1 (proj2 (proj2 (storage_fails_soft (fun _ => Some "true")
           (fun _ => None) (fun _ => true) "content_view" true false
           (<["bfi_content_view" := "{"]> ∅))))
         "{"); reflexivity.
Defined.

Section ReadingProperties.

Context (JSON_stringify : gmap string Chapter -> option string).
Context (JSON_parse : string -> option (gmap string Chapter)).
Context (accepts : gmap string string -> bool).

Lemma readCount_lookup page chapterId :
  filter (fun kc : string * Chapter => completed kc.2 = true) (chapters page)
    !! chapterId
  = if isRead chapterId page then chapters page !! chapterId else None.
Proof.
  unfold isRead. rewrite map_lookup_filter.
  destruct (chapters page !! chapterId) as [[[] ts]|]; reflexivity.
Qed.

Lemma isRead_markRead_same chapterId now page :
  isRead chapterId (markRead JSON_stringify accepts chapterId now page) = true.
Proof.
  unfold isRead, markRead. cbn [chapters]. now rewrite lookup_insert_eq.
Qed.

(** X15: a chapter marked as read is read, and marking it changes the answer
    for no other chapter. *)
Theorem markRead_isRead chapterId now page :
  isRead chapterId (markRead JSON_stringify accepts chapterId now page) = true
  /\ forall other,
       other <> chapterId ->
       isRead other (markRead JSON_stringify accepts chapterId now page)
       = isRead other page.
Proof.
  split; [apply isRead_markRead_same|].
  unfold isRead, markRead. cbn [chapters].
  intros other H. now rewrite lookup_insert_ne.
Qed.

(** X16: marking a chapter (of an identifier other than ["__proto__"], which
    names no entry of the object) adds one to the number of read chapters when
    the chapter was not read, and nothing when it was, so that marking it
    again leaves the progress as it is; the count has no upper limit. *)
Theorem markRead_readCount chapterId now page :
  chapterId <> "__proto__" ->
  let page' := markRead JSON_stringify accepts chapterId now page in
  readCount page'
  = (if isRead chapterId page then readCount page else S (readCount page))
  /\ (forall later, readCount (markRead JSON_stringify accepts chapterId later
                                 page') = readCount page')
  /\ getProgress page' = Number_of_nat (readCount page') / 13 * 100.
Proof.
  intros _.
  assert (H : forall now page,
    readCount (markRead JSON_stringify accepts chapterId now page)
    = if isRead chapterId page then readCount page else S (readCount page)).
  { clear. intros now page. unfold readCount, markRead. cbn [chapters].
    rewrite map_filter_insert_True by reflexivity.
    rewrite map_size_insert, readCount_lookup. unfold isRead.
    destruct (chapters page !! chapterId) as [[[] ts]|]; reflexivity. }
  cbv zeta. repeat split; [apply H|].
  intros later. rewrite (H later).
  now rewrite isRead_markRead_same.
Qed.

(** X17: a reload of the page restores the chapters as [markRead] left them
    (for an identifier other than ["__proto__"]), when the save succeeded and
    the saved text parses back to the chapters;
    when the save failed, the storage is as before and the mark is lost with
    the reload. *)
Theorem markRead_persists chapterId now page :
  chapterId <> "__proto__" ->
  let page' := markRead JSON_stringify accepts chapterId now page in
  (forall text,
     JSON_stringify (chapters page') = Some text ->
     accepts (<[STORAGE_PREFIX +:+ "reading_progress" := text]> (storage page))
     = true ->
     text <> "" -> JSON_parse text = Some (chapters page') ->
     chapters (page_load JSON_parse (storage page')) = chapters page')
  /\ (fst (saveToStorage _ JSON_stringify accepts "reading_progress"
             (chapters page') (storage page)) = false ->
      page_load JSON_parse (storage page')
      = page_load JSON_parse (storage page)).
Proof.
  intros _. cbv zeta. split.
  - intros text Htext Hacc Hne Hparse.
    unfold page_load. cbn [chapters].
    apply (save_load_round_trip JSON_stringify JSON_parse accepts
             "reading_progress" _ ∅ (storage page)).
    + change (storage (markRead JSON_stringify accepts chapterId now page))
        with (snd (saveToStorage _ JSON_stringify accepts "reading_progress"
                     (chapters (markRead JSON_stringify accepts chapterId now
                                  page)) (storage page))).
      unfold saveToStorage. now rewrite Htext, Hacc.
    + intros text' Htext'. rewrite Htext in Htext'. now simplify_eq.
  - intros H. unfold markRead at 1. cbn [storage].
    f_equal.
    destruct (saveToStorage _ _ _ _ _ _) as [ok st'] eqn:E. cbn in *. subst ok.
    cbn [chapters markRead] in E.
    now apply saveToStorage_false in E as ->.
Qed.

End ReadingProperties.

Lemma markRead_isRead_witness :
  isRead "ch2"
    (markRead (fun _ => Some "saved") (fun _ => true) "ch1" 0
       {| chapters := ∅; storage := ∅ |})
  = isRead "ch2" {| chapters := ∅; storage := ∅ |}.
Proof.
  apply (proj2 (markRead_isRead (fun _ => Some "saved") (fun _ => true)
                  "ch1" 0 {| chapters := ∅; storage := ∅ |})).
  discriminate.
Defined.

Lemma markRead_persists_witness :
  chapters
    (page_load
       (fun _ =>
          Some (<["ch1" := {| completed := true; timestamp := 0 |}]> ∅))
       (storage (markRead (fun _ => Some "saved") (fun _ => true) "ch1" 0
                   {| chapters := ∅; storage := ∅ |})))
  = <["ch1" := {| completed := true; timestamp := 0 |}]> ∅.
Proof.
  apply (proj1 (markRead_persists (fun _ => Some "saved")
           (fun _ => Some (<["ch1" := {| completed := true;
                                         timestamp := 0 |}]> ∅))
           (fun _ => true) "ch1" 0 {| chapters := ∅; storage := ∅ |}
           ltac:(discriminate))
         "saved"); try reflexivity.
  discriminate.
Defined.

Lemma markRead_readCount_witness :
  readCount (markRead (fun _ => Some "saved") (fun _ => true) "ch1" 0
               {| chapters := ∅; storage := ∅ |})
  = 1%nat.
Proof.
  apply (proj1 (markRead_readCount (fun _ => Some "saved") (fun _ => true)
                  "ch1" 0 {| chapters := ∅; storage := ∅ |}
                  ltac:(discriminate))).
Defined.

Section SimulatorProperties.

Context (impl : float -> float -> float).


Lemma simulate_volatility pc iv s b c ys sy :
  volatility (simulate impl pc iv s b c ys sy)
  = calculateStdDev impl (returns (simulate impl pc iv s b c ys sy)).
Proof.
  unfold simulate, simulatePortfolio, bind.
  now destruct (for_loop _ _ _ _ _ _ _ _).
Qed.

Lemma simulate_returns_map pc iv s b c ys sy :
  returns (simulate impl pc iv s b c ys sy)
  = map (yearReturn (historicalReturns pc) s b c) (seqZ sy ys).
Proof.
  rewrite simulate_returns, for_loop_returns.
  cbn [loop_start results_returns app].
  rewrite Z.add_0_r. unfold seqZ. now rewrite Nat2Z.id.
Qed.


(** X19: the maximum drawdown of the result is what [calculateMaxDrawdown]
    returns for the initial value followed by the values of the result. *)
Theorem simulate_maxDrawdown_helper pc iv s b c ys sy :
  let r := simulate impl pc iv s b c ys sy in
  maxDrawdown r = calculateMaxDrawdown (iv :: values r).
Proof.
  cbv zeta. rewrite simulate_maxDrawdown, simulate_values.
  unfold calculateMaxDrawdown.
  cbn [lookup list_lookup ToNumber fold_left]. rewrite drawdown_step_first.
  pose proof (for_loop_drawdown s b c sy (Z.to_nat ys) 0 (loop_start iv) pc
                (0, iv) eq_refl) as H.
  cbv zeta in H. now rewrite <- H.
Qed.

(** X20: a maximum drawdown is never negative and never NaN, whatever the
    values are, NaN and infinities included: that of [calculateMaxDrawdown]
    and that of the simulator. *)
Theorem maxDrawdown_not_negative :
  (forall values, (0 <=? calculateMaxDrawdown values) = true)
  /\ (forall pc iv s b c ys sy,
        (0 <=? maxDrawdown (simulate impl pc iv s b c ys sy)) = true).
Proof.
  split.
  - intros values. unfold calculateMaxDrawdown.
    now apply fold_drawdown_nonneg.
  - intros. rewrite simulate_maxDrawdown.
    pose proof (for_loop_drawdown s b c sy (Z.to_nat ys) 0 (loop_start iv) pc
                  (0, iv) eq_refl) as H.
    cbv zeta in H.
    match goal with |- (0 <=? ?x) = true =>
      change x with (fst (x, peak (fst (for_loop s b c sy (Z.to_nat ys) 0
                                          (loop_start iv) pc)))) end.
    rewrite H. now apply fold_drawdown_nonneg.
Qed.

(** X21: on the shipped tables, with everything in one asset the returns of
    the run are the entries of that asset for the years of the run, each
    exactly, the entry of 2024 standing in for a year without one. *)
Theorem all_in_one_asset pc iv ys sy :
  historicalReturns pc = shipped ->
  returns (simulate impl pc iv 100 0 0 ys sy)
  = map (fun year =>
           ToNumber (nullish (stocks shipped !! year)
                       (stocks shipped !! 2024%Z))) (seqZ sy ys)
  /\ returns (simulate impl pc iv 0 100 0 ys sy)
     = map (fun year =>
              ToNumber (nullish (bonds shipped !! year)
                          (bonds shipped !! 2024%Z))) (seqZ sy ys)
  /\ returns (simulate impl pc iv 0 0 100 ys sy)
     = map (fun year =>
              ToNumber (nullish (bitcoin shipped !! year)
                          (bitcoin shipped !! 2024%Z))) (seqZ sy ys).
Proof.
  intros Hpc. rewrite !simulate_returns_map, Hpc.
  repeat split; apply map_ext; intros year; apply yearReturn_all_in.
Qed.

(** X22: over one year or more the volatility of the result is what
    [calculateVolatility] returns for the returns of the result; over no year
    it is 0, where [calculateVolatility] returns NaN. *)
Theorem simulate_volatility_helper pc iv s b c ys sy :
  ((0 < ys)%Z ->
   volatility (simulate impl pc iv s b c ys sy)
   = calculateVolatility impl (returns (simulate impl pc iv s b c ys sy)))
  /\ ((ys <= 0)%Z ->
      volatility (simulate impl pc iv s b c ys sy) = 0
      /\ calculateVolatility impl (returns (simulate impl pc iv s b c ys sy))
         = nan).
Proof.
  rewrite simulate_volatility, simulate_returns_map. split; intros H.
  - rewrite calculateVolatility_population, calculateStdDev_population;
      [reflexivity|].
    rewrite seqZ_cons by exact H. discriminate.
  - rewrite seqZ_nil by exact H. split; reflexivity.
Qed.

End SimulatorProperties.


Lemma all_in_one_asset_witness :
  returns (simulate unspecified_pow portfolioCalc 1000000 0 0 100 3 2023)
  = map (fun year =>
           ToNumber (nullish (bitcoin shipped !! year)
                       (bitcoin shipped !! 2024%Z))) (seqZ 2023 3).
Proof.
  apply (proj2 (proj2 (all_in_one_asset unspecified_pow portfolioCalc 1000000
                         3 2023 eq_refl))).
Defined.

Lemma simulate_volatility_helper_witness :
  volatility (simulate unspecified_pow portfolioCalc 1000000 60 40 0 10 2014)
  = calculateVolatility unspecified_pow
      (returns
         (simulate unspecified_pow portfolioCalc 1000000 60 40 0 10 2014)).
Proof.
  apply (proj1 (simulate_volatility_helper unspecified_pow portfolioCalc
                  1000000 60 40 0 10 2014)).
  reflexivity.
Defined.

(** * Interpolation *)

Lemma mul_zero_finite d : finite_number d = true -> signed_zero (d * 0).
Proof.
  unfold finite_number. intros H.
  pose proof (FloatAxioms.mul_spec d 0) as E.
  change (Prim2SF 0) with (S754_zero false) in E.
  destruct (Prim2SF d) as [s|s| |s m e]; try discriminate;
    cbn in E; now apply SF_zero in E.
Qed.

Lemma add_signed_zero a z : signed_zero z -> same_number (a + z) a.
Proof.
  intros Hz. apply signed_zero_SF in Hz as [t Hz].
  pose proof (FloatAxioms.add_spec a z) as E. rewrite Hz in E.
  destruct (Prim2SF a) as [s|s| |s m e] eqn:Ea.
  - right. split; [|now apply SF_zero in Ea].
    destruct s, t; cbn in E; now apply SF_zero in E.
  - left. apply Prim2SF_inj. now rewrite E, Ea.
  - left. apply Prim2SF_inj. now rewrite E, Ea.
  - left. apply Prim2SF_inj. now rewrite E, Ea.
Qed.

(** X23: [lerp] at 0 is the start, up to the sign of a zero, when the
    difference of the ends is finite; when it overflows, as between -1e308
    and 1e308, the result is NaN. *)
Theorem lerp_at_zero :
  (forall start end_,
     finite_number (end_ - start) = true ->
     same_number (lerp start end_ 0) start)
  /\ lerp (-1e308) 1e308 0 = nan.
Proof.
  split; [|reflexivity].
  intros start end_ H. unfold lerp.
  now apply add_signed_zero, mul_zero_finite.
Qed.

Lemma lerp_at_zero_witness : same_number (lerp 2.5 10 0) 2.5.
Proof. apply (proj1 lerp_at_zero 2.5 10). reflexivity. Defined.

(** X24: clamping twice is clamping once: between ordered bounds, [clamp]
    returns a clamped value as it is, up to the sign of a zero. *)
Theorem clamp_idempotent v lo hi :
  (lo <=? hi) = true -> is_nan v = false ->
  same_number (clamp (clamp v lo hi) lo hi) (clamp v lo hi).
Proof.
  intros Hb Hv. destruct (clamp_range v lo hi Hb Hv) as [H1 H2].
  now apply clamp_unchanged.
Qed.

Lemma clamp_idempotent_witness :
  same_number (clamp (clamp 70 0 50) 0 50) (clamp 70 0 50).
Proof. apply (clamp_idempotent 70 0 50); reflexivity. Defined.

(** X25: an event on the time horizon or on the start year stores the parsed
    Number as it is, negative or fractional, and 0 for a text that does not
    parse; it changes no other field of the state. *)
Theorem handleInputChange_unvalidated parseFloat text pc :
  let value := if is_nan (parseFloat text) then 0 else parseFloat text in
  snd (handleInputChange parseFloat id_timeHorizon text pc)
  = set_timeHorizon value pc
  /\ snd (handleInputChange parseFloat id_startYear text pc)
     = set_startYear value pc.
Proof.
  cbv zeta. unfold handleInputChange, modify, set_field. cbn [snd].
  now rewrite sanitizeInput_default.
Qed.

(** X26: when nothing is stored under the key of the reading progress, or
    the stored text is empty or does not parse, the page loads with no
    chapter read and a progress of 0. *)
Theorem page_load_without_progress JSON_parse st :
  st !! (STORAGE_PREFIX +:+ "reading_progress") = None
  \/ st !! (STORAGE_PREFIX +:+ "reading_progress") = Some ""
  \/ (exists item, st !! (STORAGE_PREFIX +:+ "reading_progress") = Some item
                   /\ JSON_parse item = None) ->
  let page := page_load JSON_parse st in
  chapters page = ∅
  /\ (forall chapterId, isRead chapterId page = false)
  /\ readCount page = O
  /\ getProgress page = 0.
Proof.
  intros H.
  assert (E : chapters (page_load JSON_parse st) = ∅).
  { unfold page_load, loadFromStorage. cbn [chapters].
    destruct H as [-> | [-> | (item & -> & ->)]]; try reflexivity.
    now destruct (decide (item = "")). }
  cbv zeta. unfold isRead, getProgress, readCount. rewrite E.
  repeat split.
Qed.

Lemma page_load_without_progress_witness :
  getProgress (page_load (fun _ => None) ∅) = 0.
Proof.
  apply (page_load_without_progress (fun _ => None) ∅). left. reflexivity.
Defined.
